(** * xavs2: source/common/common.c

    A shallow embedding of the diagnostic layer of the xavs2 encoder: the
    trace recorder ([xavs2_trace_init], [xavs2_trace_destroy],
    [xavs2_trace]), the log sink and gate ([xavs2_log_default],
    [xavs2_log]) and the clock ([xavs2_mdate]).

    The C functions act on process-wide state (the [h_trace] handle, the
    standard output stream, the files they create).  That state is the
    record [world]; every function takes a world and returns the next one,
    together with its C return value when it has one. *)

From Stdlib Require Import ZArith String Ascii List Lia DecimalString.
From stdpp Require Import base option list gmap strings.

Local Open Scope string_scope.
Local Open Scope list_scope.
Local Open Scope Z_scope.

(** ** Machine integers *)

(** [int] and [int64_t] values are integers of [Z]; [sint w] is the
    two's-complement wrap-around of a [w]-bit signed result. *)
Definition sint (w : Z) (z : Z) : Z :=
  (z + 2 ^ (w - 1)) mod 2 ^ w - 2 ^ (w - 1).

Definition int64 (z : Z) : Z := sint 64 z.

Definition INT_MIN : Z := - 2 ^ 31.
Definition INT_MAX : Z := 2 ^ 31 - 1.
Definition INT64_MIN : Z := - 2 ^ 63.
Definition INT64_MAX : Z := 2 ^ 63 - 1.

Definition is_int (z : Z) : Prop := INT_MIN <= z <= INT_MAX.
Definition is_int64 (z : Z) : Prop := INT64_MIN <= z <= INT64_MAX.

(** ** Characters and strings of the C source *)

Definition ESC : ascii := ascii_of_nat 27.   (* \033 *)
Definition LF : ascii := ascii_of_nat 10.    (* \n   *)

Definition str1 (c : ascii) : string := String c EmptyString.

(** [strlen] of a NUL-terminated string, as a C integer. *)
Definition strlen (s : string) : Z := Z.of_nat (String.length s).

(** ** Log levels *)

(** Modelled from the spec: the constants [XAVS2_LOG_*] are declared in a
    header of the repository that is not part of the sources at hand.  The
    spec orders the severities ERROR, WARNING, INFO, DEBUG, NOPREFIX with
    the lower value the more severe, and gives ERROR the red, WARNING the
    yellow, INFO the green and DEBUG the cyan entry of the color table that
    [xavs2_log_default] indexes by the level, which are its entries 0 to 3. *)
Definition XAVS2_LOG_ERROR : Z := 0.
Definition XAVS2_LOG_WARNING : Z := 1.
Definition XAVS2_LOG_INFO : Z := 2.
Definition XAVS2_LOG_DEBUG : Z := 3.
Definition XAVS2_LOG_NOPREFIX : Z := 4.

(** ** Formatting *)

(** The variadic arguments of a [printf]-style call. *)
Inductive arg : Type :=
| ArgStr (s : string)
| ArgInt (z : Z)
| ArgChar (c : ascii).

Definition string_of_Z (z : Z) : string :=
  NilZero.string_of_int (Z.to_int z).

(** The expansion of a format string, for the conversions [%s], [%d],
    [%c] and [%%] of the C library.  It is the expansion of the C library
    on the calls that [conversions_ok], below, accepts.  Outside them (a
    conversion with a missing or ill-typed argument, which C leaves
    undefined, a width, a flag, another conversion, a [%] at the end) the
    model expands a conversion without its argument to nothing and copies
    the rest, which is not what the C library does. *)
Fixpoint vformat (fmt : string) (args : list arg) : string :=
  match fmt with
  | EmptyString => EmptyString
  | String "%" (String c rest as tl) =>
      if Ascii.eqb c "%" then String "%" (vformat rest args)
      else if Ascii.eqb c "s" then
        match args with
        | ArgStr s :: args' => s +:+ vformat rest args'
        | _ :: args' => vformat rest args'
        | [] => vformat rest []
        end
      else if Ascii.eqb c "d" then
        match args with
        | ArgInt z :: args' => string_of_Z z +:+ vformat rest args'
        | _ :: args' => vformat rest args'
        | [] => vformat rest []
        end
      else if Ascii.eqb c "c" then
        match args with
        | ArgChar a :: args' => String a (vformat rest args')
        | _ :: args' => vformat rest args'
        | [] => vformat rest []
        end
      else String "%" (vformat tl args)
  | String c rest => String c (vformat rest args)
  end.

Definition NUL : ascii := ascii_of_nat 0.

(** A text of the model is a C string when it holds no NUL. *)
Fixpoint no_nul (s : string) : bool :=
  match s with
  | EmptyString => true
  | String c s' => negb (Ascii.eqb c NUL) && no_nul s'
  end.

(** The calls on which [vformat] is the expansion of the C library and the
    expansion is a C string: the format holds no NUL, every [%] starts one
    of [%s], [%d], [%c], [%%], and each conversion finds an argument of its
    type, a string without NUL, an [int], a character other than NUL. *)
Fixpoint conversions_ok (fmt : string) (args : list arg) : bool :=
  match fmt with
  | EmptyString => true
  | String "%" (String c rest) =>
      if Ascii.eqb c "%" then conversions_ok rest args
      else if Ascii.eqb c "s" then
        match args with
        | ArgStr s :: args' => no_nul s && conversions_ok rest args'
        | _ => false
        end
      else if Ascii.eqb c "d" then
        match args with
        | ArgInt z :: args' =>
            (INT_MIN <=? z) && (z <=? INT_MAX) && conversions_ok rest args'
        | _ => false
        end
      else if Ascii.eqb c "c" then
        match args with
        | ArgChar a :: args' => negb (Ascii.eqb a NUL) && conversions_ok rest args'
        | _ => false
        end
      else false
  | String c rest =>
      if Ascii.eqb c "%" || Ascii.eqb c NUL then false
      else conversions_ok rest args
  end.

(** ** The process state *)

(** A [FILE] of the C library: the path it was opened on, the text that
    has been written to it and not yet flushed, and whether it is still
    open.  A [FILE *] is an index into the table of streams; [NULL] is
    [None]. *)
Record stream : Type := {
  s_path : string;
  s_buf : string;
  s_open : bool
}.

(** What reaches the standard output: the text of an [fprintf], and, on
    the Windows console, a change of the text attribute, either to a known
    attribute or to the word that lies at [colors[index]] for an index
    outside the table. *)
Inductive stdout_event : Type :=
| Text (t : string)
| SetAttribute (attr : Z)
| SetAttributeOutside (index : Z).

(** Steps that leave the behaviour of the C program undefined.  The model
    records them and goes on with the calls as they are written; what it
    shows after a fault is what the calls would do, not what C promises. *)
Inductive fault : Type :=
| BufferOverrun (stored capacity : Z)
| StreamAfterClose (h : nat)
| TableOverread (index : Z).

Record world : Type := {
  files : gmap string string;     (* the content of the files on disk *)
  denied : gset string;           (* paths that cannot be opened for writing *)
  streams : list stream;          (* the FILE objects handed out so far *)
  h_trace : option nat;           (* FILE *h_trace *)
  g_sym_count : Z;
  g_bit_count : Z;
  stdout : list stdout_event;
  stdout_isatty : bool;           (* is stdout an interactive terminal *)
  faults : list fault
}.

(** The state of a process at start: [h_trace = NULL], both counters 0. *)
Definition process_start (fs : gmap string string) (ro : gset string)
    (tty : bool) : world :=
  {| files := fs; denied := ro; streams := []; h_trace := None;
     g_sym_count := 0; g_bit_count := 0;
     stdout := []; stdout_isatty := tty; faults := [] |}.

Definition set_files (fs : gmap string string) (w : world) : world :=
  {| files := fs; denied := denied w; streams := streams w;
     h_trace := h_trace w; g_sym_count := g_sym_count w;
     g_bit_count := g_bit_count w; stdout := stdout w;
     stdout_isatty := stdout_isatty w; faults := faults w |}.

Definition set_streams (ss : list stream) (w : world) : world :=
  {| files := files w; denied := denied w; streams := ss;
     h_trace := h_trace w; g_sym_count := g_sym_count w;
     g_bit_count := g_bit_count w; stdout := stdout w;
     stdout_isatty := stdout_isatty w; faults := faults w |}.

Definition set_h_trace (h : option nat) (w : world) : world :=
  {| files := files w; denied := denied w; streams := streams w;
     h_trace := h; g_sym_count := g_sym_count w;
     g_bit_count := g_bit_count w; stdout := stdout w;
     stdout_isatty := stdout_isatty w; faults := faults w |}.

Definition put_stdout (e : stdout_event) (w : world) : world :=
  {| files := files w; denied := denied w; streams := streams w;
     h_trace := h_trace w; g_sym_count := g_sym_count w;
     g_bit_count := g_bit_count w; stdout := stdout w ++ [e];
     stdout_isatty := stdout_isatty w; faults := faults w |}.

Definition raise (f : fault) (w : world) : world :=
  {| files := files w; denied := denied w; streams := streams w;
     h_trace := h_trace w; g_sym_count := g_sym_count w;
     g_bit_count := g_bit_count w; stdout := stdout w;
     stdout_isatty := stdout_isatty w; faults := faults w ++ [f] |}.

(** The text that has reached the standard output. *)
Fixpoint text_of (evs : list stdout_event) : string :=
  match evs with
  | [] => EmptyString
  | Text t :: evs' => t +:+ text_of evs'
  | SetAttribute _ :: evs' => text_of evs'
  | SetAttributeOutside _ :: evs' => text_of evs'
  end.

(** The content of the file at [path]; a file that does not exist has none. *)
Definition content (path : string) (w : world) : option string :=
  files w !! path.

(** ** The C library calls of common.c *)

(** [fopen(path, "wt")]: fails on a path that cannot be written, and
    otherwise creates or truncates the file and hands out a new stream. *)
Definition fopen_wt (path : string) (w : world) : option nat * world :=
  if bool_decide (path ∈ denied w) then (None, w)
  else
    let s := {| s_path := path; s_buf := EmptyString; s_open := true |} in
    (Some (length (streams w)),
     set_streams (streams w ++ [s]) (set_files (<[path := EmptyString]> (files w)) w)).

(** The stream behind a [FILE *], when it is still open. *)
Definition open_stream (h : nat) (w : world) : option stream :=
  match streams w !! h with
  | Some s => if s_open s then Some s else None
  | None => None
  end.

(** [vfprintf(h, fmt, arg)]: the expansion goes to the buffer of the
    stream, the result is the number of characters.  Writes on an open
    stream succeed in the model. *)
Definition vfprintf (h : nat) (fmt : string) (args : list arg) (w : world)
    : Z * world :=
  match open_stream h w with
  | Some s =>
      let text := vformat fmt args in
      let s' := {| s_path := s_path s; s_buf := s_buf s +:+ text; s_open := true |} in
      (strlen text, set_streams (<[h := s']> (streams w)) w)
  | None => (-1, raise (StreamAfterClose h) w)
  end.

(** [fflush(h)]: the buffered text is appended to the file. *)
Definition fflush (h : nat) (w : world) : world :=
  match open_stream h w with
  | Some s =>
      let old := default EmptyString (files w !! s_path s) in
      let s' := {| s_path := s_path s; s_buf := EmptyString; s_open := true |} in
      set_streams (<[h := s']> (streams w))
        (set_files (<[s_path s := old +:+ s_buf s]> (files w)) w)
  | None => raise (StreamAfterClose h) w
  end.

(** [fclose(h)]: flushes, then releases the stream. *)
Definition fclose (h : nat) (w : world) : world :=
  match open_stream h w with
  | Some s =>
      let w1 := fflush h w in
      let s' := {| s_path := s_path s; s_buf := EmptyString; s_open := false |} in
      set_streams (<[h := s']> (streams w1)) w1
  | None => raise (StreamAfterClose h) w
  end.

(** [vsprintf(buf, fmt, arg)] into an array of [capacity] bytes: it stores
    the expansion and its terminating NUL, however long the expansion is.
    Past the array the model records the overrun and hands the expansion
    on; the C program is undefined from there.  The expansion is handed on
    whole: the reader of the buffer stops at a NUL, so the model is the code
    on expansions without one. *)
Definition vsprintf (capacity : Z) (fmt : string) (args : list arg) (w : world)
    : string * world :=
  let text := vformat fmt args in
  let stored := strlen text + 1 in
  (text, if capacity <? stored then raise (BufferOverrun stored capacity) w else w).

(** [fprintf(stdout, ...)] of an expanded text. *)
Definition fprintf_stdout (text : string) (w : world) : world :=
  put_stdout (Text text) w.

(** ** The structures of the encoder that common.c reads *)

(** Of [xavs2_param_t] and [xavs2_t], declared in headers, common.c reads
    the log level, the path of the trace file and the [param] pointer. *)
Record xavs2_param_t : Type := {
  i_log_level : Z;
  psz_trace_file : string
}.

Record xavs2_t : Type := {
  param : xavs2_param_t
}.

(** The two arms of [#ifdef _MSC_VER]. *)
Inductive compiler : Type :=
| MSVC
| OtherCompiler.

(** ** xavs2_log *)

(** [XAVS2_MIN] is a macro of a header that is not part of the sources at
    hand; it is taken to be the smaller of its arguments, as it is named. *)
Definition XAVS2_MIN (a b : Z) : Z := if a <? b then a else b.

(** The attribute bits of the Windows console. *)
Definition FOREGROUND_BLUE : Z := 1.
Definition FOREGROUND_GREEN : Z := 2.
Definition FOREGROUND_RED : Z := 4.
Definition FOREGROUND_INTENSITY : Z := 8.

Definition colors : list Z :=
  [ Z.lor FOREGROUND_INTENSITY FOREGROUND_RED;
    Z.lor (Z.lor FOREGROUND_INTENSITY FOREGROUND_RED) FOREGROUND_GREEN;
    Z.lor FOREGROUND_INTENSITY FOREGROUND_GREEN;
    Z.lor (Z.lor FOREGROUND_INTENSITY FOREGROUND_GREEN) FOREGROUND_BLUE;
    Z.lor (Z.lor FOREGROUND_RED FOREGROUND_GREEN) FOREGROUND_BLUE ].

(** The entry of a table at a C index, when the index is inside it. *)
Definition at_index {A : Type} (l : list A) (i : Z) : option A :=
  if i <? 0 then None else l !! Z.to_nat i.

Definition xavs2_set_font_color (color : Z) (w : world) : world :=
  let color := XAVS2_MIN 4 color in
  match at_index colors color with
  | Some attr => put_stdout (SetAttribute attr) w
  | None => put_stdout (SetAttributeOutside color) (raise (TableOverread color) w)
  end.

Definition str_color_clear : string := String ESC "[0m".

Definition str_color : list string :=
  [ String ESC "[1;31m";    (* red *)
    String ESC "[1;33m";    (* yellow *)
    String ESC "[1;32m";    (* green *)
    String ESC "[1;36m";    (* cyan *)
    String ESC "[0m" ].     (* (default) *)

Definition null_prefix : string := EmptyString.

(** The prefix and, for the compilers other than MSVC, the color that the
    [switch] of [xavs2_log_default] selects.  [cur_color] starts as
    [str_color[i_log_level]]; outside the table the [default] case replaces
    it before it is read, and [xavs2_log_default] records that the index
    was outside. *)
Definition log_prefix_color (i_log_level : Z) : string * string :=
  let cur_color := default EmptyString (at_index str_color i_log_level) in
  let psz_prefix := null_prefix in
  if i_log_level =? XAVS2_LOG_ERROR then ("[error]: ", cur_color)
  else if i_log_level =? XAVS2_LOG_WARNING then ("[warning]: ", cur_color)
  else if i_log_level =? XAVS2_LOG_INFO then ("[info]: ", cur_color)
  else if i_log_level =? XAVS2_LOG_DEBUG then ("[debug]: ", cur_color)
  else if i_log_level =? XAVS2_LOG_NOPREFIX then
    (null_prefix, default EmptyString (at_index str_color 3))
  else ("[unknown]: ", default EmptyString (at_index str_color 0)).

Definition xavs2_log_default (cc : compiler) (i_log_level : Z)
    (psz_fmt : string) (w : world) : world :=
  let '(psz_prefix, cur_color) := log_prefix_color i_log_level in
  match cc with
  | MSVC =>
      let w1 := xavs2_set_font_color i_log_level w in
      let w2 := fprintf_stdout (psz_prefix +:+ psz_fmt) w1 in
      xavs2_set_font_color 4 w2
  | OtherCompiler =>
      let w :=
        match at_index str_color i_log_level with
        | Some _ => w
        | None => raise (TableOverread i_log_level) w
        end in
      if negb (i_log_level =? XAVS2_LOG_INFO)
         && negb (i_log_level =? XAVS2_LOG_NOPREFIX)
      then fprintf_stdout
             (cur_color +:+ psz_prefix +:+ psz_fmt +:+ str_color_clear) w
      else fprintf_stdout (psz_prefix +:+ psz_fmt) w
  end.

(** [h->param->i_log_level], the threshold of a context. *)
Definition threshold (h : xavs2_t) : Z := i_log_level (param h).

(** The condition of [xavs2_log]:
    [h == NULL || (i_log_level & 0x0F) <= h->param->i_log_level]. *)
Definition log_passes (p : option xavs2_t) (i_log_level : Z) : bool :=
  match p with
  | None => true
  | Some h => Z.land i_log_level 15 <=? threshold h
  end.

(** The size of [char str_in[2048]]. *)
Definition str_in_size : Z := 2048.

Definition xavs2_log (cc : compiler) (p : option xavs2_t) (i_log_level : Z)
    (psz_fmt : string) (args : list arg) (w : world) : world :=
  if log_passes p i_log_level then
    let '(str_in, w1) := vsprintf str_in_size psz_fmt args w in
    xavs2_log_default cc i_log_level str_in w1
  else w.

(** ** The trace file *)

Definition xavs2_trace_init (cc : compiler) (param : xavs2_param_t)
    (w : world) : Z * world :=
  if strlen (psz_trace_file param) >? 0 then
    (* create or truncate the trace file *)
    let '(f, w1) := fopen_wt (psz_trace_file param) w in
    let w2 := set_h_trace f w1 in
    match f with
    | None =>
        (-1, xavs2_log cc None XAVS2_LOG_ERROR
               ("trace: can't write to %s" +:+ str1 LF)
               [ArgStr (psz_trace_file param)] w2)
    | Some _ => (0, w2)
    end
  else (0, w).

Definition xavs2_trace_destroy (w : world) : world :=
  match h_trace w with
  | Some h => fclose h w
  | None => w
  end.

Definition xavs2_trace (psz_fmt : string) (args : list arg) (w : world)
    : Z * world :=
  let len := 0 in
  (* append to the trace file *)
  match h_trace w with
  | Some h =>
      let '(len, w1) := vfprintf h psz_fmt args w in
      (len, fflush h w1)
  | None => (len, w)
  end.

(** ** xavs2_mdate *)

(** What the operating system hands to [xavs2_mdate]: [gettimeofday] where
    [SYS_WINDOWS] is off; on Windows the performance counter and its
    frequency when the frequency query succeeds, and [ftime] otherwise. *)
Inductive clock_reading : Type :=
| Gettimeofday (tv_sec tv_usec : Z)
| PerformanceCounter (nFreq t1 : Z)
| Ftime (time millitm : Z).

(** The branch of the performance counter divides in [double]; the
    integer model has no value for it. *)
Definition xavs2_mdate (r : clock_reading) : option Z :=
  match r with
  | Gettimeofday tv_sec tv_usec =>
      Some (int64 (int64 (int64 tv_sec * 1000000) + int64 tv_usec))
  | PerformanceCounter _ _ => None
  | Ftime time millitm =>
      Some (int64 (int64 (int64 (int64 time * 1000) + int64 millitm) * 1000))
  end.

(** ** Observations *)

(** A call has emitted when the standard output holds more than before. *)
Definition emitted (w w' : world) : bool :=
  (length (stdout w) <? length (stdout w'))%nat.

(** The same world with the standard output attached, or not, to an
    interactive terminal. *)
Definition set_isatty (tty : bool) (w : world) : world :=
  {| files := files w; denied := denied w; streams := streams w;
     h_trace := h_trace w; g_sym_count := g_sym_count w;
     g_bit_count := g_bit_count w; stdout := stdout w;
     stdout_isatty := tty; faults := faults w |}.

(** A run of trace writes, each with its format and arguments; the result
    lists what each call returned. *)
Fixpoint trace_all (calls : list (string * list arg)) (w : world)
    : list Z * world :=
  match calls with
  | [] => ([], w)
  | (fmt, args) :: calls' =>
      let '(len, w1) := xavs2_trace fmt args w in
      let '(lens, w2) := trace_all calls' w1 in
      (len :: lens, w2)
  end.

(** The records of a run of trace writes, one after the other. *)
Fixpoint records (calls : list (string * list arg)) : string :=
  match calls with
  | [] => EmptyString
  | (fmt, args) :: calls' => vformat fmt args +:+ records calls'
  end.

(** A text of [n] letters. *)
Definition letters (n : nat) : string :=
  string_of_list_ascii (repeat "a"%char n).

(** Contexts and worlds to run the code on: a context whose threshold is
    below every severity, one at INFO; a fresh process whose standard output
    goes to a file or a pipe, and one on a terminal. *)
Definition context_of (threshold : Z) : xavs2_t :=
  {| param := {| i_log_level := threshold; psz_trace_file := EmptyString |} |}.

Definition quiet_context : xavs2_t := context_of (-1).
Definition info_context : xavs2_t := context_of XAVS2_LOG_INFO.

Definition redirected : world := process_start ∅ ∅ false.
Definition on_terminal : world := process_start ∅ ∅ true.

(** The recorder is open on [path] through the stream [h], with nothing
    left in the buffer of the stream. *)
Definition recording (h : nat) (path : string) (w : world) : Prop :=
  h_trace w = Some h
  /\ streams w !! h
     = Some {| s_path := path; s_buf := EmptyString; s_open := true |}.

(** The parameters of an encoder that traces to [path], and a process
    that has opened its trace on "t.log". *)
Definition trace_param (path : string) : xavs2_param_t :=
  {| i_log_level := XAVS2_LOG_INFO; psz_trace_file := path |}.

Definition tracing : world :=
  snd (xavs2_trace_init OtherCompiler (trace_param "t.log") redirected).

(** A process in which "t.log" cannot be opened for writing. *)
Definition read_only : world := process_start ∅ {["t.log"]} false.

(** What a call has added to the standard output. *)
Definition appended (w w' : world) : list stdout_event :=
  drop (length (stdout w)) (stdout w').

(** The sum of the values that a run of calls returned. *)
Definition total (lens : list Z) : Z := foldr Z.add 0 lens.

(** The seconds and the fraction of a reading are those of a clock: the
    fraction is below one second, and the sum of [xavs2_mdate] stays within
    64 bits. *)
Definition timeval_ok (tv_sec tv_usec : Z) : Prop :=
  0 <= tv_sec /\ 0 <= tv_usec < 1000000
  /\ tv_sec * 1000000 + tv_usec <= INT64_MAX.

Definition timeb_ok (time millitm : Z) : Prop :=
  0 <= time /\ 0 <= millitm < 1000
  /\ (time * 1000 + millitm) * 1000 <= INT64_MAX.

(** The level is an index inside the table of its build: [colors], after
    the clamp of [xavs2_set_font_color], for MSVC, and [str_color] for the
    other compilers. *)
Definition level_in_table (cc : compiler) (level : Z) : bool :=
  match cc with
  | MSVC => 0 <=? level
  | OtherCompiler => (0 <=? level) && (level <? 5)
  end.

(** A log call every step of which C defines: its conversions are those
    of [conversions_ok], its expansion and the NUL fit in [str_in], and its
    level is inside the table. *)
Definition log_defined (cc : compiler) (level : Z) (fmt : string)
    (args : list arg) : bool :=
  conversions_ok fmt args
  && (strlen (vformat fmt args) <? str_in_size)
  && level_in_table cc level.

(** * Properties *)

(** ** Strings *)

Lemma string_app_assoc (a b c : string) : (a +:+ b) +:+ c = a +:+ b +:+ c.
Proof.
  induction a as [|x a IH]; [reflexivity|].
  change (String x ((a +:+ b) +:+ c) = String x (a +:+ b +:+ c)).
  now rewrite IH.
Qed.

Lemma string_app_nil_r (a : string) : a +:+ EmptyString = a.
Proof.
  induction a as [|x a IH]; [reflexivity|].
  change (String x (a +:+ EmptyString) = String x a).
  now rewrite IH.
Qed.

(** ** The log sink *)

(** Takes a call of the log that has passed the gate down to its writes,
    by cases on the compiler, on the room left in [str_in] and on the entry
    of [colors]. *)
Ltac log_cases cc level :=
  unfold vsprintf, xavs2_log_default, xavs2_set_font_color;
  destruct (log_prefix_color level) as [? ?];
  destruct cc;
  repeat match goal with
         | |- context [if ?b then _ else _] => destruct b
         | |- context [at_index colors ?i] => destruct (at_index colors i)
         | |- context [at_index str_color ?i] => destruct (at_index str_color i)
         end.

Lemma stdout_raise f w : stdout (raise f w) = stdout w.
Proof. reflexivity. Qed.

Lemma stdout_put e w : stdout (put_stdout e w) = stdout w ++ [e].
Proof. reflexivity. Qed.

Lemma stdout_set_font_color color w :
  exists evs, stdout (xavs2_set_font_color color w) = stdout w ++ evs
    /\ forall text, Text text ∉ evs.
Proof.
  unfold xavs2_set_font_color.
  destruct (at_index colors (XAVS2_MIN 4 color)) as [attr|].
  - exists [SetAttribute attr]. split; [reflexivity|].
    intros text Hin. apply list_elem_of_singleton in Hin. discriminate.
  - exists [SetAttributeOutside (XAVS2_MIN 4 color)]. split; [reflexivity|].
    intros text Hin. apply list_elem_of_singleton in Hin. discriminate.
Qed.

(** What [xavs2_log_default] adds to the standard output: some events,
    one of them the write of the message between a prefix and a suffix. *)
Lemma xavs2_log_default_stdout cc level msg w :
  exists evs pre post,
    stdout (xavs2_log_default cc level msg w) = stdout w ++ evs
    /\ Text (pre +:+ msg +:+ post) ∈ evs.
Proof.
  unfold xavs2_log_default.
  destruct (log_prefix_color level) as [psz_prefix cur_color].
  destruct cc.
  - destruct (stdout_set_font_color level w) as (evs1 & H1 & _).
    set (w1 := xavs2_set_font_color level w) in *.
    set (w2 := fprintf_stdout (psz_prefix +:+ msg) w1).
    destruct (stdout_set_font_color 4 w2) as (evs2 & H2 & _).
    exists (evs1 ++ [Text (psz_prefix +:+ msg)] ++ evs2), psz_prefix, EmptyString.
    split.
    + rewrite H2. subst w2. unfold fprintf_stdout. rewrite stdout_put, H1.
      now rewrite <- !app_assoc.
    + rewrite string_app_nil_r. set_solver.
  - set (w0 := match at_index str_color level with Some _ => w | None => _ end).
    assert (Hw0 : stdout w0 = stdout w)
      by (subst w0; now destruct (at_index str_color level)).
    rewrite <- Hw0.
    destruct (negb (level =? XAVS2_LOG_INFO) && negb (level =? XAVS2_LOG_NOPREFIX)).
    + exists [Text (cur_color +:+ psz_prefix +:+ msg +:+ str_color_clear)],
        (cur_color +:+ psz_prefix), str_color_clear.
      split; [reflexivity|]. rewrite string_app_assoc. set_solver.
    + exists [Text (psz_prefix +:+ msg)], psz_prefix, EmptyString.
      split; [reflexivity|]. rewrite string_app_nil_r. set_solver.
Qed.

Lemma stdout_vsprintf capacity fmt args w :
  fst (vsprintf capacity fmt args w) = vformat fmt args
  /\ stdout (snd (vsprintf capacity fmt args w)) = stdout w.
Proof.
  unfold vsprintf. simpl. split; [reflexivity|].
  now destruct (capacity <? strlen (vformat fmt args) + 1).
Qed.

(** A message that passes the gate reaches the standard output; a message
    that does not leaves the world as it is. *)
Lemma xavs2_log_passed cc p level fmt args w :
  log_passes p level = true ->
  exists evs pre post,
    stdout (xavs2_log cc p level fmt args w) = stdout w ++ evs
    /\ Text (pre +:+ vformat fmt args +:+ post) ∈ evs.
Proof.
  intros Hpass. unfold xavs2_log. rewrite Hpass.
  destruct (stdout_vsprintf str_in_size fmt args w) as [Htext Hout].
  destruct (vsprintf str_in_size fmt args w) as [str_in w1]. simpl in *. subst str_in.
  destruct (xavs2_log_default_stdout cc level (vformat fmt args) w1)
    as (evs & pre & post & Hevs & Hin).
  exists evs, pre, post. now rewrite Hevs, Hout.
Qed.

Lemma xavs2_log_refused cc p level fmt args w :
  log_passes p level = false -> xavs2_log cc p level fmt args w = w.
Proof. intros Hpass. unfold xavs2_log. now rewrite Hpass. Qed.

Lemma emitted_xavs2_log cc p level fmt args w :
  emitted w (xavs2_log cc p level fmt args w) = log_passes p level.
Proof.
  unfold emitted. destruct (log_passes p level) eqn:Hpass.
  - destruct (xavs2_log_passed cc p level fmt args w Hpass)
      as (evs & pre & post & Hevs & Hin).
    rewrite Hevs, length_app. apply Nat.ltb_lt.
    destruct evs; [inversion Hin | simpl; lia].
  - rewrite xavs2_log_refused by assumption. apply Nat.ltb_irrefl.
Qed.

Lemma text_of_app (a b : list stdout_event) :
  text_of (a ++ b) = text_of a +:+ text_of b.
Proof.
  induction a as [|[t|attr|index] a IH]; simpl;
    [reflexivity| |assumption|assumption].
  now rewrite IH, string_app_assoc.
Qed.

(** The levels with a bit above the low four are the negative ones and
    those from 16 on. *)
Lemma high_bits_range (level : Z) :
  Z.shiftr level 4 <> 0 -> level < 0 \/ 16 <= level.
Proof.
  intros Hhigh. destruct (Z_lt_le_dec level 0) as [|Hnn]; [now left|].
  destruct (Z_lt_le_dec level 16) as [Hlt|]; [|now right].
  exfalso. apply Hhigh. rewrite Z.shiftr_div_pow2 by lia.
  apply Z.div_small. change (2 ^ 4) with 16. lia.
Qed.

Lemma log_prefix_color_unknown (level : Z) :
  level < 0 \/ 16 <= level ->
  log_prefix_color level = ("[unknown]: ", String ESC "[1;31m").
Proof.
  intros Hrange. unfold log_prefix_color.
  unfold XAVS2_LOG_ERROR, XAVS2_LOG_WARNING, XAVS2_LOG_INFO,
    XAVS2_LOG_DEBUG, XAVS2_LOG_NOPREFIX.
  repeat match goal with
         | |- context [level =? ?k] => destruct (Z.eqb_spec level k); [lia|]
         end.
  reflexivity.
Qed.

Lemma log_passes_masked (h : xavs2_t) (level : Z) :
  log_passes (Some h) level = log_passes (Some h) (Z.land level 15).
Proof.
  unfold log_passes. now rewrite <- Z.land_assoc, Z.land_diag.
Qed.

Lemma xavs2_log_ignores_terminal cc p level fmt args w tty :
  stdout (xavs2_log cc p level fmt args (set_isatty tty w))
  = stdout (xavs2_log cc p level fmt args w).
Proof.
  unfold xavs2_log. destruct (log_passes p level); [|reflexivity].
  log_cases cc level; reflexivity.
Qed.

(** The one write of the build for the compilers other than MSVC. *)
Lemma xavs2_log_other_stdout p level fmt args w :
  log_passes p level = true ->
  stdout (xavs2_log OtherCompiler p level fmt args w)
  = stdout w ++
    [Text (if negb (level =? XAVS2_LOG_INFO) && negb (level =? XAVS2_LOG_NOPREFIX)
            then snd (log_prefix_color level) +:+ fst (log_prefix_color level)
                 +:+ vformat fmt args +:+ str_color_clear
            else fst (log_prefix_color level) +:+ vformat fmt args)].
Proof.
  intros Hpass. unfold xavs2_log. rewrite Hpass. unfold vsprintf.
  unfold xavs2_log_default. destruct (log_prefix_color level) as [pre col].
  destruct (str_in_size <? strlen (vformat fmt args) + 1);
    destruct (at_index str_color level);
    destruct (negb _ && negb _); reflexivity.
Qed.

(** The text of the MSVC build: the prefix and the message. *)
Lemma xavs2_log_msvc_text p level fmt args w :
  log_passes p level = true ->
  text_of (stdout (xavs2_log MSVC p level fmt args w))
  = text_of (stdout w) +:+ fst (log_prefix_color level) +:+ vformat fmt args.
Proof.
  intros Hpass. unfold xavs2_log. rewrite Hpass. unfold vsprintf.
  unfold xavs2_log_default. destruct (log_prefix_color level) as [pre col].
  set (w1 := if str_in_size <? strlen (vformat fmt args) + 1 then _ else w).
  assert (Hw1 : stdout w1 = stdout w) by (subst w1; now destruct (_ <? _)).
  unfold xavs2_set_font_color, fprintf_stdout.
  destruct (at_index colors (XAVS2_MIN 4 4)), (at_index colors (XAVS2_MIN 4 level));
    simpl; rewrite ?text_of_app, Hw1; simpl;
    rewrite ?text_of_app; simpl;
    now rewrite ?string_app_nil_r, ?string_app_assoc.
Qed.

(** ** The log gate and the log sink: the claims *)

(** C1, as stated, fails: with the threshold -1 of [quiet_context] an
    ERROR message is not emitted, although ERROR is claimed to be emitted
    whatever the threshold. *)
Lemma log_error_silent_below_zero :
  ~ (emitted redirected
       (xavs2_log OtherCompiler (Some quiet_context) XAVS2_LOG_ERROR "disk full" []
          redirected) = true
     <-> (Z.land XAVS2_LOG_ERROR 15 <= threshold quiet_context
          \/ Z.land XAVS2_LOG_ERROR 15 = XAVS2_LOG_ERROR)).
Proof.
  intros [_ Hclaim].
  assert (Hemit : emitted redirected
            (xavs2_log OtherCompiler (Some quiet_context) XAVS2_LOG_ERROR
               "disk full" [] redirected) = true)
    by (apply Hclaim; right; reflexivity).
  vm_compute in Hemit. discriminate Hemit.
Qed.

(** C1 (amended).  With a context, [xavs2_log] emits exactly when the
    level masked to its low 4 bits is at most the threshold of the context.
    ERROR is emitted for every threshold from 0 on, and under a negative
    threshold no level is emitted.  Two levels with the same low 4 bits
    get the same decision. *)
Theorem log_gate_masked_threshold cc h level fmt args w :
  (emitted w (xavs2_log cc (Some h) level fmt args w) = true
   <-> Z.land level 15 <= threshold h)
  /\ (0 <= threshold h ->
      emitted w (xavs2_log cc (Some h) XAVS2_LOG_ERROR fmt args w) = true)
  /\ (threshold h < 0 ->
      emitted w (xavs2_log cc (Some h) level fmt args w) = false)
  /\ (forall level', Z.land level' 15 = Z.land level 15 ->
      emitted w (xavs2_log cc (Some h) level' fmt args w)
      = emitted w (xavs2_log cc (Some h) level fmt args w)).
Proof.
  rewrite !emitted_xavs2_log. unfold log_passes.
  split; [apply Z.leb_le|]. split; [|split].
  - intros Hnn. apply Z.leb_le. exact Hnn.
  - intros Hneg. apply Z.leb_gt.
    assert (0 <= Z.land level 15) by (apply Z.land_nonneg; right; lia). lia.
  - intros level' Hsame. rewrite emitted_xavs2_log. unfold log_passes.
    now rewrite Hsame.
Qed.

Lemma log_gate_masked_threshold_witness :
  emitted redirected
    (xavs2_log OtherCompiler (Some info_context) XAVS2_LOG_ERROR "disk full" []
       redirected) = true
  /\ emitted redirected
       (xavs2_log OtherCompiler (Some quiet_context) XAVS2_LOG_DEBUG "disk full" []
          redirected) = false
  /\ emitted redirected
       (xavs2_log OtherCompiler (Some info_context) 18 "disk full" [] redirected)
     = emitted redirected
         (xavs2_log OtherCompiler (Some info_context) XAVS2_LOG_INFO "disk full" []
            redirected).
Proof.
  split; [|split].
  - apply (proj1 (proj2 (log_gate_masked_threshold OtherCompiler info_context
                            XAVS2_LOG_ERROR "disk full" [] redirected))).
    vm_compute. discriminate.
  - apply (proj1 (proj2 (proj2 (log_gate_masked_threshold OtherCompiler
                                   quiet_context XAVS2_LOG_DEBUG "disk full" []
                                   redirected)))).
    reflexivity.
  - apply (proj2 (proj2 (proj2 (log_gate_masked_threshold OtherCompiler
                                   info_context XAVS2_LOG_INFO "disk full" []
                                   redirected)))).
    reflexivity.
Defined.

(** C2 fails on the code: an expansion of 2048 characters makes
    [vsprintf] store 2049 bytes into the 2048 bytes of [str_in]. *)
Theorem log_overruns_str_in cc tty :
  faults (xavs2_log cc None XAVS2_LOG_ERROR (letters 2048) []
            (process_start ∅ ∅ tty))
  = [BufferOverrun 2049 2048].
Proof. destruct cc, tty; vm_compute; reflexivity. Qed.

(** [vsprintf] checks no length: every expansion that leaves no room for
    the NUL in the array is stored past its end. *)
Lemma vsprintf_unbounded capacity fmt args w :
  capacity <= strlen (vformat fmt args) ->
  faults (snd (vsprintf capacity fmt args w))
  = faults w ++ [BufferOverrun (strlen (vformat fmt args) + 1) capacity].
Proof.
  intros Hlong. unfold vsprintf. simpl.
  destruct (Z.ltb_spec capacity (strlen (vformat fmt args) + 1)); [reflexivity|lia].
Qed.

(** C3, as stated, fails: built with a compiler other than MSVC, an ERROR
    line written to a standard output that is not a terminal carries the
    red escape sequence and the reset sequence. *)
Lemma log_error_colored_off_terminal :
  stdout_isatty redirected = false
  /\ text_of (stdout (xavs2_log OtherCompiler None XAVS2_LOG_ERROR "disk full" []
                        redirected))
     = String ESC "[1;31m[error]: disk full" +:+ String ESC "[0m"
  /\ text_of (stdout (xavs2_log OtherCompiler None XAVS2_LOG_ERROR "disk full" []
                        redirected))
     <> "[error]: disk full".
Proof. split; [reflexivity|]. split; [reflexivity|]. vm_compute. discriminate. Qed.

(** C3 (amended).  [xavs2_log] never asks whether the standard output is
    a terminal: it writes the same on either kind of stream.  Built with a
    compiler other than MSVC, an emitted line of a level other than INFO and
    NOPREFIX is wrapped in the escape sequence of a color of the table and
    the reset sequence, an ERROR line in the red one, and INFO and NOPREFIX
    lines are the plain prefix and message.  Built with MSVC the text is the
    prefix and the message alone. *)
Theorem log_output_ignores_terminal p level fmt args w :
  (forall cc tty,
      stdout (xavs2_log cc p level fmt args (set_isatty tty w))
      = stdout (xavs2_log cc p level fmt args w))
  /\ (log_passes p level = true ->
      (level <> XAVS2_LOG_INFO -> level <> XAVS2_LOG_NOPREFIX ->
       exists color prefix,
         color ∈ str_color
         /\ stdout (xavs2_log OtherCompiler p level fmt args w)
            = stdout w ++
              [Text (color +:+ prefix +:+ vformat fmt args +:+ str_color_clear)])
      /\ (level = XAVS2_LOG_ERROR ->
          stdout (xavs2_log OtherCompiler p level fmt args w)
          = stdout w ++
            [Text (String ESC "[1;31m" +:+ "[error]: " +:+ vformat fmt args
                    +:+ String ESC "[0m")])
      /\ (level = XAVS2_LOG_INFO ->
          stdout (xavs2_log OtherCompiler p level fmt args w)
          = stdout w ++ [Text ("[info]: " +:+ vformat fmt args)])
      /\ (level = XAVS2_LOG_NOPREFIX ->
          stdout (xavs2_log OtherCompiler p level fmt args w)
          = stdout w ++ [Text (vformat fmt args)])
      /\ text_of (stdout (xavs2_log MSVC p level fmt args w))
         = text_of (stdout w) +:+ fst (log_prefix_color level)
           +:+ vformat fmt args).
Proof.
  split; [intros cc tty; apply xavs2_log_ignores_terminal|].
  intros Hpass. repeat split.
  - intros Hinfo Hnop. rewrite xavs2_log_other_stdout by assumption.
    destruct (Z.eqb_spec level XAVS2_LOG_INFO) as [|_]; [contradiction|].
    destruct (Z.eqb_spec level XAVS2_LOG_NOPREFIX) as [|_]; [contradiction|].
    exists (snd (log_prefix_color level)), (fst (log_prefix_color level)).
    split; [|reflexivity].
    unfold log_prefix_color.
    destruct (Z.eqb_spec level XAVS2_LOG_ERROR) as [->|_];
      [simpl; set_solver|].
    destruct (Z.eqb_spec level XAVS2_LOG_WARNING) as [->|_];
      [simpl; set_solver|].
    destruct (Z.eqb_spec level XAVS2_LOG_INFO) as [|_]; [contradiction|].
    destruct (Z.eqb_spec level XAVS2_LOG_DEBUG) as [->|_];
      [simpl; set_solver|].
    destruct (Z.eqb_spec level XAVS2_LOG_NOPREFIX) as [|_]; [contradiction|].
    simpl. set_solver.
  - intros ->. now rewrite xavs2_log_other_stdout by assumption.
  - intros ->. now rewrite xavs2_log_other_stdout by assumption.
  - intros ->. now rewrite xavs2_log_other_stdout by assumption.
  - now apply xavs2_log_msvc_text.
Qed.

Lemma log_output_ignores_terminal_witness :
  stdout (xavs2_log OtherCompiler None XAVS2_LOG_ERROR "disk full" []
            (set_isatty false on_terminal))
  = stdout on_terminal ++
    [Text (String ESC "[1;31m" +:+ "[error]: " +:+ vformat "disk full" []
            +:+ String ESC "[0m")].
Proof.
  destruct (log_output_ignores_terminal None XAVS2_LOG_ERROR "disk full" []
              on_terminal) as [Htty Hline].
  rewrite Htty.
  apply Hline; reflexivity.
Defined.

(** C10, as stated, fails: built with MSVC, a message of level
    [0x10 | ERROR] is written under the white attribute, the last entry of
    [colors], and the red attribute is never set. *)
Lemma log_high_bits_white_on_msvc :
  stdout (xavs2_log MSVC None (Z.lor 16 XAVS2_LOG_ERROR) "disk full" [] on_terminal)
  = [SetAttribute 7; Text "[unknown]: disk full"; SetAttribute 7]
  /\ SetAttribute (Z.lor FOREGROUND_INTENSITY FOREGROUND_RED)
     ∉ stdout (xavs2_log MSVC None (Z.lor 16 XAVS2_LOG_ERROR) "disk full" []
                 on_terminal).
Proof.
  split; [reflexivity|].
  vm_compute. intros Hin. repeat (apply elem_of_cons in Hin as [Heq|Hin]; [discriminate Heq|]).
  inversion Hin.
Qed.

(** C10 (amended).  For a level with a bit above the low four, the gate
    decides as for the masked level, while the sink dispatches on the whole
    level: a message that passes gets the prefix "[unknown]: ".  Built with a
    compiler other than MSVC it is wrapped in the red escape sequence and
    the reset sequence; built with MSVC, a level from 16 on is written under
    [colors[4]], the white attribute. *)
Theorem log_high_bits_render_unknown p level fmt args w :
  Z.shiftr level 4 <> 0 ->
  (forall h, log_passes (Some h) level = log_passes (Some h) (Z.land level 15))
  /\ (log_passes p level = true ->
      stdout (xavs2_log OtherCompiler p level fmt args w)
      = stdout w ++
        [Text (String ESC "[1;31m" +:+ "[unknown]: " +:+ vformat fmt args
                +:+ str_color_clear)]
      /\ (16 <= level ->
          stdout (xavs2_log MSVC p level fmt args w)
          = stdout w ++
            [SetAttribute
               (Z.lor (Z.lor FOREGROUND_RED FOREGROUND_GREEN) FOREGROUND_BLUE);
             Text ("[unknown]: " +:+ vformat fmt args);
             SetAttribute
               (Z.lor (Z.lor FOREGROUND_RED FOREGROUND_GREEN) FOREGROUND_BLUE)])).
Proof.
  intros Hhigh. apply high_bits_range in Hhigh.
  split; [intros h; apply log_passes_masked|].
  intros Hpass. split.
  - rewrite xavs2_log_other_stdout by assumption.
    rewrite log_prefix_color_unknown by assumption.
    unfold XAVS2_LOG_INFO, XAVS2_LOG_NOPREFIX.
    destruct (Z.eqb_spec level 2); [lia|].
    destruct (Z.eqb_spec level 4); [lia|]. reflexivity.
  - intros Hbig. unfold xavs2_log. rewrite Hpass. unfold vsprintf.
    unfold xavs2_log_default. rewrite log_prefix_color_unknown by assumption.
    unfold xavs2_set_font_color, XAVS2_MIN.
    destruct (Z.ltb_spec 4 level); [|lia].
    destruct (str_in_size <? strlen (vformat fmt args) + 1); simpl;
      now rewrite <- !app_assoc.
Qed.

Lemma log_high_bits_render_unknown_witness :
  stdout (xavs2_log OtherCompiler (Some info_context) 17 "disk full" [] redirected)
  = stdout redirected ++
    [Text (String ESC "[1;31m" +:+ "[unknown]: " +:+ vformat "disk full" []
            +:+ str_color_clear)].
Proof.
  apply (log_high_bits_render_unknown (Some info_context) 17 "disk full" []
           redirected).
  - vm_compute. discriminate.
  - reflexivity.
Defined.

(** ** The trace recorder *)

Lemma strlen_pos (s : string) : s <> EmptyString -> (strlen s >? 0) = true.
Proof.
  destruct s as [|c s]; [contradiction|]. intros _.
  unfold strlen. simpl String.length. apply Z.gtb_lt. lia.
Qed.

(** The log touches neither the files nor the streams nor [h_trace]. *)
Lemma xavs2_log_keeps_files cc p level fmt args w :
  files (xavs2_log cc p level fmt args w) = files w
  /\ streams (xavs2_log cc p level fmt args w) = streams w
  /\ h_trace (xavs2_log cc p level fmt args w) = h_trace w.
Proof.
  unfold xavs2_log. destruct (log_passes p level); [|now repeat split].
  log_cases cc level; now repeat split.
Qed.

(** Without a handle a write does nothing and returns 0. *)
Lemma xavs2_trace_disabled fmt args w :
  h_trace w = None -> xavs2_trace fmt args w = (0, w).
Proof. intros Hnull. unfold xavs2_trace. now rewrite Hnull. Qed.

Lemma trace_all_disabled calls w :
  h_trace w = None -> trace_all calls w = (map (fun _ => 0) calls, w).
Proof.
  intros Hnull. induction calls as [|[fmt args] calls IH]; [reflexivity|].
  simpl. rewrite xavs2_trace_disabled by assumption. now rewrite IH.
Qed.

(** C4.  From the state without a handle, [xavs2_trace_init] on an empty
    path returns 0 and changes nothing, and any run of writes after it
    returns 0 at each call and leaves the world, its files included, as it
    was. *)
Theorem trace_disabled_by_empty_path cc level w calls :
  h_trace w = None ->
  xavs2_trace_init cc {| i_log_level := level; psz_trace_file := EmptyString |} w
  = (0, w)
  /\ trace_all calls w = (map (fun _ => 0) calls, w)
  /\ files (snd (trace_all calls w)) = files w.
Proof.
  intros Hnull. split; [reflexivity|].
  rewrite trace_all_disabled by assumption. now split.
Qed.

Lemma trace_disabled_by_empty_path_witness :
  trace_all [("a=%d;", [ArgInt 5]); ("b=%s;", [ArgStr "xy"])] redirected
  = ([0; 0], redirected).
Proof.
  apply (trace_disabled_by_empty_path OtherCompiler XAVS2_LOG_INFO redirected
           [("a=%d;", [ArgInt 5]); ("b=%s;", [ArgStr "xy"])]).
  reflexivity.
Defined.

(** C5.  On a path that is not empty and cannot be opened for writing,
    [xavs2_trace_init] returns -1 after an ERROR message of [xavs2_log]
    that names the path; no handle is held, no file or stream has been
    made, and every later write returns 0 and changes nothing. *)
Theorem trace_init_unwritable cc param w :
  psz_trace_file param <> EmptyString ->
  psz_trace_file param ∈ denied w ->
  let path := psz_trace_file param in
  let w' := snd (xavs2_trace_init cc param w) in
  xavs2_trace_init cc param w
  = (-1, xavs2_log cc None XAVS2_LOG_ERROR
           ("trace: can't write to %s" +:+ str1 LF) [ArgStr path]
           (set_h_trace None w))
  /\ stdout w'
     = stdout w ++
       match cc with
       | MSVC =>
           [SetAttribute (Z.lor FOREGROUND_INTENSITY FOREGROUND_RED);
            Text ("[error]: trace: can't write to " +:+ path +:+ str1 LF);
            SetAttribute
              (Z.lor (Z.lor FOREGROUND_RED FOREGROUND_GREEN) FOREGROUND_BLUE)]
       | OtherCompiler =>
           [Text (String ESC "[1;31m" +:+ "[error]: trace: can't write to "
                   +:+ path +:+ str1 LF +:+ str_color_clear)]
       end
  /\ h_trace w' = None
  /\ files w' = files w
  /\ streams w' = streams w
  /\ forall fmt args, xavs2_trace fmt args w' = (0, w').
Proof.
  intros Hpath Hdenied path w'.
  assert (Hinit : xavs2_trace_init cc param w
                  = (-1, xavs2_log cc None XAVS2_LOG_ERROR
                           ("trace: can't write to %s" +:+ str1 LF) [ArgStr path]
                           (set_h_trace None w))).
  { unfold xavs2_trace_init. rewrite strlen_pos by assumption.
    unfold fopen_wt. now rewrite bool_decide_eq_true_2 by assumption. }
  subst w'. rewrite Hinit. simpl snd.
  destruct (xavs2_log_keeps_files cc None XAVS2_LOG_ERROR
              ("trace: can't write to %s" +:+ str1 LF) [ArgStr path]
              (set_h_trace None w)) as (Hfiles & Hstreams & Hhandle).
  split; [reflexivity|]. split; [|split; [|split; [|split]]].
  - unfold xavs2_log, log_passes, vsprintf.
    assert (Htext : vformat ("trace: can't write to %s" +:+ str1 LF) [ArgStr path]
                    = "trace: can't write to " +:+ path +:+ str1 LF)
      by reflexivity.
    rewrite Htext.
    destruct (str_in_size <? _); destruct cc; simpl;
      rewrite <- ?app_assoc, ?string_app_assoc; reflexivity.
  - now rewrite Hhandle.
  - now rewrite Hfiles.
  - now rewrite Hstreams.
  - intros fmt args. apply xavs2_trace_disabled. now rewrite Hhandle.
Qed.

Lemma trace_init_unwritable_witness :
  fst (xavs2_trace_init OtherCompiler (trace_param "t.log") read_only) = -1
  /\ h_trace (snd (xavs2_trace_init OtherCompiler (trace_param "t.log") read_only))
     = None.
Proof.
  assert (Hpath : psz_trace_file (trace_param "t.log") <> EmptyString)
    by discriminate.
  assert (Hdenied : psz_trace_file (trace_param "t.log") ∈ denied read_only)
    by (vm_compute; reflexivity).
  destruct (trace_init_unwritable OtherCompiler (trace_param "t.log") read_only
              Hpath Hdenied) as (Hinit & _ & Hhandle & _).
  split; [now rewrite Hinit | exact Hhandle].
Defined.

Lemma open_stream_recording h path w :
  recording h path w ->
  open_stream h w
  = Some {| s_path := path; s_buf := EmptyString; s_open := true |}.
Proof. intros [_ Hstream]. unfold open_stream. now rewrite Hstream. Qed.

(** One write on an open recorder: the record is on disk when the call
    returns, and the buffer of the stream is empty again. *)
Lemma xavs2_trace_recording h path old fmt args w :
  recording h path w ->
  content path w = Some old ->
  fst (xavs2_trace fmt args w) = strlen (vformat fmt args)
  /\ content path (snd (xavs2_trace fmt args w)) = Some (old +:+ vformat fmt args)
  /\ recording h path (snd (xavs2_trace fmt args w)).
Proof.
  intros Hrec Hold. pose proof (open_stream_recording h path w Hrec) as Hopen.
  destruct Hrec as [Hhandle Hstream].
  assert (Hlt : (h < length (streams w))%nat)
    by (eapply lookup_lt_Some; exact Hstream).
  unfold xavs2_trace. rewrite Hhandle.
  unfold vfprintf. rewrite Hopen. simpl s_path. simpl s_buf.
  unfold fflush, open_stream. simpl streams.
  rewrite list_lookup_insert_eq by assumption. simpl.
  unfold content in *. simpl. rewrite Hold. simpl.
  repeat split.
  - now rewrite lookup_insert_eq.
  - exact Hhandle.
  - simpl streams. rewrite list_lookup_insert_eq; [reflexivity|].
    now rewrite length_insert.
Qed.

(** C6.  On an open recorder with an active handle, every write of a run
    returns the length of its formatted record, and when it returns the file
    holds the record after all that it held and the stream has nothing
    buffered: after the run the file is what it was followed by the
    records of the run, one after the other. *)
Theorem trace_appends_and_flushes h path calls : forall old w,
  recording h path w ->
  content path w = Some old ->
  fst (trace_all calls w)
  = map (fun call => strlen (vformat (fst call) (snd call))) calls
  /\ content path (snd (trace_all calls w)) = Some (old +:+ records calls)
  /\ recording h path (snd (trace_all calls w)).
Proof.
  induction calls as [|[fmt args] calls IH]; intros old w Hrec Hold.
  - simpl. now rewrite string_app_nil_r.
  - destruct (xavs2_trace_recording h path old fmt args w Hrec Hold)
      as (Hlen & Hfile & Hrec1).
    simpl. destruct (xavs2_trace fmt args w) as [len w1]. simpl in *.
    destruct (IH (old +:+ vformat fmt args) w1 Hrec1 Hfile)
      as (Hlens & Hfiles & Hrecs).
    destruct (trace_all calls w1) as [lens w2]. simpl in *.
    subst len lens. rewrite Hfiles, string_app_assoc.
    split; [reflexivity|]. split; [reflexivity|assumption].
Qed.

(** A successful [xavs2_trace_init] leaves the recorder open on the new,
    empty file. *)
Lemma trace_init_opens cc param w :
  psz_trace_file param <> EmptyString ->
  psz_trace_file param ∉ denied w ->
  fst (xavs2_trace_init cc param w) = 0
  /\ recording (length (streams w)) (psz_trace_file param)
       (snd (xavs2_trace_init cc param w))
  /\ content (psz_trace_file param) (snd (xavs2_trace_init cc param w))
     = Some EmptyString.
Proof.
  intros Hpath Hfree. unfold xavs2_trace_init.
  rewrite strlen_pos by assumption. unfold fopen_wt.
  rewrite bool_decide_eq_false_2 by assumption. simpl.
  split; [reflexivity|]. split; [split; [reflexivity|]|].
  - simpl. rewrite lookup_app_r by reflexivity.
    now rewrite Nat.sub_diag.
  - unfold content. simpl. apply lookup_insert_eq.
Qed.

Lemma trace_appends_and_flushes_witness :
  fst (trace_all [("a=%d;", [ArgInt 5]); ("b=%s;", [ArgStr "xy"])] tracing)
  = [4; 5]
  /\ content "t.log"
       (snd (trace_all [("a=%d;", [ArgInt 5]); ("b=%s;", [ArgStr "xy"])] tracing))
     = Some "a=5;b=xy;".
Proof.
  assert (Hrec : recording 0 "t.log" tracing) by (split; reflexivity).
  assert (Hold : content "t.log" tracing = Some EmptyString) by reflexivity.
  destruct (trace_appends_and_flushes 0 "t.log"
              [("a=%d;", [ArgInt 5]); ("b=%s;", [ArgStr "xy"])]
              EmptyString tracing Hrec Hold) as (Hlens & Hfile & _).
  split; [exact Hlens | exact Hfile].
Defined.

(** After [fclose] the stream is no longer open. *)
Lemma fclose_closes h s w :
  open_stream h w = Some s ->
  open_stream h (fclose h w) = None
  /\ faults (fclose h w) = faults w
  /\ h_trace (fclose h w) = h_trace w.
Proof.
  intros Hopen. unfold fclose, fflush. rewrite Hopen.
  assert (Hlt : (h < length (streams w))%nat).
  { unfold open_stream in Hopen.
    destruct (streams w !! h) eqn:Hs; [|discriminate].
    eapply lookup_lt_Some; exact Hs. }
  unfold open_stream. simpl.
  rewrite list_lookup_insert_eq by now rewrite length_insert.
  now repeat split.
Qed.

(** C7 fails on the code.  Without a handle, [xavs2_trace_destroy] does
    nothing, once or twice.  With an open handle the first call closes the
    stream and keeps the handle in [h_trace], and the second call closes the
    closed stream again. *)
Theorem trace_destroy_twice_closes_twice w :
  (h_trace w = None ->
   xavs2_trace_destroy w = w
   /\ xavs2_trace_destroy (xavs2_trace_destroy w) = w)
  /\ (forall h s,
      h_trace w = Some h ->
      open_stream h w = Some s ->
      faults (xavs2_trace_destroy w) = faults w
      /\ h_trace (xavs2_trace_destroy w) = Some h
      /\ faults (xavs2_trace_destroy (xavs2_trace_destroy w))
         = faults w ++ [StreamAfterClose h]).
Proof.
  split.
  - intros Hnull. unfold xavs2_trace_destroy. now rewrite !Hnull.
  - intros h s Hhandle Hopen.
    destruct (fclose_closes h s w Hopen) as (Hclosed & Hfaults & Hkept).
    assert (Hfirst : xavs2_trace_destroy w = fclose h w)
      by (unfold xavs2_trace_destroy; now rewrite Hhandle).
    rewrite Hfirst. split; [exact Hfaults|].
    split; [now rewrite Hkept|].
    unfold xavs2_trace_destroy. rewrite Hkept, Hhandle.
    unfold fclose at 1. rewrite Hclosed. simpl. now rewrite Hfaults.
Qed.

Lemma trace_destroy_twice_closes_twice_witness :
  faults (xavs2_trace_destroy (xavs2_trace_destroy tracing))
  = faults tracing ++ [StreamAfterClose 0%nat].
Proof.
  apply (proj2 (trace_destroy_twice_closes_twice tracing) 0%nat
           {| s_path := "t.log"; s_buf := EmptyString; s_open := true |});
    reflexivity.
Defined.

(** ** The clock *)

Lemma int64_exact (z : Z) : is_int64 z -> int64 z = z.
Proof.
  unfold is_int64, INT64_MIN, INT64_MAX, int64, sint. intros Hz.
  change (64 - 1) with 63.
  change (2 ^ 63) with 9223372036854775808 in *.
  change (2 ^ 64) with 18446744073709551616.
  rewrite Z.mod_small by lia. lia.
Qed.

Lemma int64_bounds (z : Z) : is_int64 (int64 z).
Proof.
  unfold is_int64, INT64_MIN, INT64_MAX, int64, sint.
  change (64 - 1) with 63.
  change (2 ^ 63) with 9223372036854775808.
  change (2 ^ 64) with 18446744073709551616.
  pose proof (Z.mod_pos_bound (z + 9223372036854775808) 18446744073709551616).
  lia.
Qed.

(** C9.  [xavs2_mdate] returns a 64-bit signed number of microseconds.
    From [gettimeofday] it is the seconds times 1000000 plus the
    microseconds, and from [ftime] it is the seconds times 1000 plus the
    milliseconds, times 1000, whenever the steps of these sums are 64-bit
    values, as they are for the time of a system clock. *)
Theorem xavs2_mdate_microseconds :
  (forall r t, xavs2_mdate r = Some t -> is_int64 t)
  /\ (forall tv_sec tv_usec,
      is_int64 tv_sec -> is_int64 tv_usec ->
      is_int64 (tv_sec * 1000000) ->
      is_int64 (tv_sec * 1000000 + tv_usec) ->
      xavs2_mdate (Gettimeofday tv_sec tv_usec)
      = Some (tv_sec * 1000000 + tv_usec))
  /\ (forall time millitm,
      is_int64 time -> is_int64 millitm ->
      is_int64 (time * 1000) ->
      is_int64 (time * 1000 + millitm) ->
      is_int64 ((time * 1000 + millitm) * 1000) ->
      xavs2_mdate (Ftime time millitm)
      = Some ((time * 1000 + millitm) * 1000)).
Proof.
  split; [|split].
  - intros [tv_sec tv_usec|nFreq t1|time millitm] t Ht; simpl in Ht;
      [|discriminate|]; injection Ht as <-; apply int64_bounds.
  - intros tv_sec tv_usec Hsec Husec Hmul Hsum. simpl.
    now rewrite (int64_exact tv_sec), (int64_exact tv_usec),
      (int64_exact (tv_sec * 1000000)), int64_exact.
  - intros time millitm Htime Hms Hmul Hsum Hall. simpl.
    now rewrite (int64_exact time), (int64_exact millitm),
      (int64_exact (time * 1000)), (int64_exact (time * 1000 + millitm)),
      int64_exact.
Qed.

Lemma xavs2_mdate_microseconds_witness :
  xavs2_mdate (Gettimeofday 1700000000 123456) = Some 1700000000123456
  /\ xavs2_mdate (Ftime 1700000000 123) = Some 1700000000123000.
Proof.
  split.
  - apply (proj1 (proj2 xavs2_mdate_microseconds) 1700000000 123456);
      vm_compute; split; discriminate.
  - apply (proj2 (proj2 xavs2_mdate_microseconds) 1700000000 123);
      vm_compute; split; discriminate.
Defined.

(** ** A log call, event by event *)

Lemma stdout_set_font_color_white w :
  stdout (xavs2_set_font_color 4 w)
  = stdout w ++
    [SetAttribute (Z.lor (Z.lor FOREGROUND_RED FOREGROUND_GREEN) FOREGROUND_BLUE)].
Proof. reflexivity. Qed.

(** The one call of [SetConsoleTextAttribute] that [xavs2_set_font_color]
    makes: with an entry of [colors] for a color from 0 on, with what lies
    before the table for a negative one. *)
Lemma xavs2_set_font_color_event color w :
  exists e,
    stdout (xavs2_set_font_color color w) = stdout w ++ [e]
    /\ faults (xavs2_set_font_color color w)
       = faults w ++ (if 0 <=? color then [] else [TableOverread color])
    /\ (0 <= color ->
        exists attr,
          e = SetAttribute attr /\ attr ∈ colors
          /\ (4 <= color ->
              attr = Z.lor (Z.lor FOREGROUND_RED FOREGROUND_GREEN) FOREGROUND_BLUE))
    /\ (color < 0 -> e = SetAttributeOutside color).
Proof.
  unfold xavs2_set_font_color, XAVS2_MIN, at_index.
  destruct (Z.ltb_spec 4 color) as [Hbig|Hsmall].
  - destruct (Z.leb_spec 0 color); [|lia]. simpl. eexists.
    split; [reflexivity|]. split; [now rewrite app_nil_r|]. split; [|lia].
    intros _. eexists. split; [reflexivity|]. split; [set_solver|reflexivity].
  - destruct (Z.ltb_spec color 0) as [Hneg|Hnn].
    + destruct (Z.leb_spec 0 color); [lia|]. eexists.
      split; [reflexivity|]. split; [reflexivity|]. split; [lia|reflexivity].
    + destruct (Z.leb_spec 0 color); [|lia].
      assert (Hcases : color = 0 \/ color = 1 \/ color = 2 \/ color = 3
                       \/ color = 4) by lia.
      destruct Hcases as [->|[->|[->|[->| ->]]]]; simpl; eexists;
        (split; [reflexivity|]); (split; [now rewrite app_nil_r|]);
        (split; [|lia]); intros _; eexists; (split; [reflexivity|]);
        (split; [set_solver|]); first [lia | reflexivity].
Qed.

Lemma at_index_str_color (level : Z) :
  at_index str_color level = None <-> level_in_table OtherCompiler level = false.
Proof.
  unfold at_index, level_in_table.
  destruct (Z.ltb_spec level 0) as [Hneg|Hnn].
  - destruct (Z.leb_spec 0 level); [lia|]. now split.
  - destruct (Z.leb_spec 0 level); [|lia].
    destruct (Z.ltb_spec level 5) as [Hin|Hout].
    + assert (Hcases : level = 0 \/ level = 1 \/ level = 2 \/ level = 3
                       \/ level = 4) by lia.
      destruct Hcases as [->|[->|[->|[->| ->]]]]; now split.
    + split; [reflexivity|]. intros _. apply lookup_ge_None_2. simpl. lia.
Qed.

Lemma faults_log_default cc level msg w :
  faults (xavs2_log_default cc level msg w)
  = faults w ++ (if level_in_table cc level then [] else [TableOverread level]).
Proof.
  unfold xavs2_log_default. destruct (log_prefix_color level) as [pre col].
  destruct cc.
  - destruct (xavs2_set_font_color_event level w) as (e1 & _ & Hf1 & _).
    set (w1 := xavs2_set_font_color level w) in *.
    destruct (xavs2_set_font_color_event 4 (fprintf_stdout (pre +:+ msg) w1))
      as (e2 & _ & Hf2 & _).
    rewrite Hf2. simpl. now rewrite Hf1, app_nil_r.
  - pose proof (at_index_str_color level) as Htable.
    destruct (at_index str_color level) as [c|].
    + destruct (level_in_table OtherCompiler level).
      * rewrite app_nil_r. now destruct (negb _ && negb _).
      * discriminate (proj2 Htable eq_refl).
    + rewrite (proj1 Htable eq_refl). now destruct (negb _ && negb _).
Qed.

(** The faults of a log call, in the order of the calls. *)
Lemma xavs2_log_faults cc p level fmt args w :
  faults (xavs2_log cc p level fmt args w)
  = faults w ++
    if log_passes p level then
      (if str_in_size <=? strlen (vformat fmt args)
       then [BufferOverrun (strlen (vformat fmt args) + 1) str_in_size]
       else [])
      ++ (if level_in_table cc level then [] else [TableOverread level])
    else [].
Proof.
  unfold xavs2_log. destruct (log_passes p level); [|now rewrite app_nil_r].
  unfold vsprintf. rewrite faults_log_default.
  destruct (Z.ltb_spec str_in_size (strlen (vformat fmt args) + 1)),
    (Z.leb_spec str_in_size (strlen (vformat fmt args))); try lia;
    simpl faults; now rewrite <- ?app_assoc.
Qed.

Lemma xavs2_log_defined_faults cc p level fmt args w :
  log_defined cc level fmt args = true ->
  faults (xavs2_log cc p level fmt args w) = faults w.
Proof.
  unfold log_defined. intros [[_ Hfits%Z.ltb_lt]%andb_prop Hlevel]%andb_prop.
  rewrite xavs2_log_faults, Hlevel.
  destruct (Z.leb_spec str_in_size (strlen (vformat fmt args))); [lia|].
  destruct (log_passes p level); now rewrite app_nil_r.
Qed.

(** The three events of the MSVC build. *)
Lemma xavs2_log_msvc_stdout p level fmt args w :
  log_passes p level = true ->
  exists first,
    stdout (xavs2_log MSVC p level fmt args w)
    = stdout w ++
      [first;
       Text (fst (log_prefix_color level) +:+ vformat fmt args);
       SetAttribute
         (Z.lor (Z.lor FOREGROUND_RED FOREGROUND_GREEN) FOREGROUND_BLUE)]
    /\ (0 <= level -> exists attr, first = SetAttribute attr /\ attr ∈ colors)
    /\ (level < 0 -> first = SetAttributeOutside level).
Proof.
  intros Hpass. unfold xavs2_log. rewrite Hpass. unfold vsprintf.
  set (w1 := if str_in_size <? strlen (vformat fmt args) + 1 then _ else w).
  assert (Hw1 : stdout w1 = stdout w) by (subst w1; now destruct (_ <? _)).
  unfold xavs2_log_default. destruct (log_prefix_color level) as [pre col].
  rewrite stdout_set_font_color_white. unfold fprintf_stdout.
  rewrite stdout_put. simpl fst.
  destruct (xavs2_set_font_color_event level w1)
    as (first & Hout & _ & Hknown & Houtside).
  exists first. rewrite Hout, Hw1, <- !app_assoc.
  split; [reflexivity|]. split; [|exact Houtside].
  intros Hnn. destruct (Hknown Hnn) as (attr & Hfirst & Hin & _). eauto.
Qed.

(** C8 fails on the code, by the defect of C2.  Without a context
    [xavs2_log] writes the message whatever the level: for every level, and
    every format and arguments within [conversions_ok] whose expansion fits
    in [str_in], the expansion is written once, after the prefix of the
    level, between the color and the reset where the build and the level
    have them, with no overrun.  An expansion of 2048 characters or more is
    stored past the end of [str_in] before anything is written. *)
Theorem log_without_context_emits_what_fits cc level fmt args w :
  (conversions_ok fmt args = true ->
   strlen (vformat fmt args) < str_in_size ->
   emitted w (xavs2_log cc None level fmt args w) = true
   /\ faults (xavs2_log cc None level fmt args w)
      = faults w ++ (if level_in_table cc level then [] else [TableOverread level])
   /\ match cc with
      | MSVC =>
          exists first,
            stdout (xavs2_log cc None level fmt args w)
            = stdout w ++
              [first;
               Text (fst (log_prefix_color level) +:+ vformat fmt args);
               SetAttribute
                 (Z.lor (Z.lor FOREGROUND_RED FOREGROUND_GREEN) FOREGROUND_BLUE)]
      | OtherCompiler =>
          stdout (xavs2_log cc None level fmt args w)
          = stdout w ++
            [Text (if negb (level =? XAVS2_LOG_INFO)
                      && negb (level =? XAVS2_LOG_NOPREFIX)
                   then snd (log_prefix_color level)
                        +:+ fst (log_prefix_color level)
                        +:+ vformat fmt args +:+ str_color_clear
                   else fst (log_prefix_color level) +:+ vformat fmt args)]
      end)
  /\ (str_in_size <= strlen (vformat fmt args) ->
      exists later,
        faults (xavs2_log cc None level fmt args w)
        = faults w
          ++ BufferOverrun (strlen (vformat fmt args) + 1) str_in_size :: later).
Proof.
  split.
  - intros _ Hfits. split; [now rewrite emitted_xavs2_log|]. split.
    + rewrite xavs2_log_faults. simpl log_passes.
      destruct (Z.leb_spec str_in_size (strlen (vformat fmt args))); [lia|].
      reflexivity.
    + destruct cc.
      * destruct (xavs2_log_msvc_stdout None level fmt args w eq_refl)
          as (first & Hout & _).
        exists first. exact Hout.
      * now apply xavs2_log_other_stdout.
  - intros Hlong. rewrite xavs2_log_faults. simpl log_passes.
    destruct (Z.leb_spec str_in_size (strlen (vformat fmt args))); [|lia].
    eexists. reflexivity.
Qed.

Lemma log_without_context_emits_what_fits_witness :
  stdout (xavs2_log OtherCompiler None XAVS2_LOG_DEBUG "x=%d %s%%"
            [ArgInt 5; ArgStr "ab"] redirected)
  = [Text (String ESC "[1;36m[debug]: x=5 ab%" +:+ String ESC "[0m")]
  /\ faults (xavs2_log OtherCompiler None XAVS2_LOG_DEBUG "x=%d %s%%"
               [ArgInt 5; ArgStr "ab"] redirected)
     = []
  /\ exists later,
       faults (xavs2_log OtherCompiler None XAVS2_LOG_DEBUG (letters 2048) []
                 redirected)
       = BufferOverrun 2049 2048 :: later.
Proof.
  destruct (log_without_context_emits_what_fits OtherCompiler XAVS2_LOG_DEBUG
              "x=%d %s%%" [ArgInt 5; ArgStr "ab"] redirected) as [Hfits _].
  destruct Hfits as (_ & Hfaults & Hout); [reflexivity | vm_compute; reflexivity |].
  destruct (log_without_context_emits_what_fits OtherCompiler XAVS2_LOG_DEBUG
              (letters 2048) [] redirected) as [_ Hlong].
  destruct Hlong as (later & Hover); [vm_compute; discriminate|].
  split; [exact Hout|]. split; [exact Hfaults|].
  exists later. exact Hover.
Defined.

(** * Further properties of the code *)

(** ** The console color and the faults of a log call *)

(** X1.  [xavs2_set_font_color] clamps its index from above only.  For a
    color from 0 on it sets the console to an entry of [colors], the white
    one from 4 on, and does nothing else.  For a negative color it reads
    [colors] before its first entry and sets the console to what lies
    there. *)
Theorem set_font_color_clamps_above_only color w :
  (0 <= color ->
   exists attr,
     attr ∈ colors
     /\ stdout (xavs2_set_font_color color w) = stdout w ++ [SetAttribute attr]
     /\ faults (xavs2_set_font_color color w) = faults w
     /\ (4 <= color ->
         attr = Z.lor (Z.lor FOREGROUND_RED FOREGROUND_GREEN) FOREGROUND_BLUE))
  /\ (color < 0 ->
      stdout (xavs2_set_font_color color w)
      = stdout w ++ [SetAttributeOutside color]
      /\ faults (xavs2_set_font_color color w)
         = faults w ++ [TableOverread color]).
Proof.
  destruct (xavs2_set_font_color_event color w)
    as (e & Hout & Hfaults & Hknown & Houtside).
  split.
  - intros Hnn. destruct (Hknown Hnn) as (attr & -> & Hin & Hwhite).
    exists attr. destruct (Z.leb_spec 0 color); [|lia].
    rewrite app_nil_r in Hfaults. now repeat split.
  - intros Hneg. rewrite (Houtside Hneg) in Hout.
    destruct (Z.leb_spec 0 color); [lia|]. now split.
Qed.

Lemma set_font_color_clamps_above_only_witness :
  stdout (xavs2_set_font_color (-1) on_terminal)
  = [SetAttributeOutside (-1)]
  /\ faults (xavs2_set_font_color (-1) on_terminal) = [TableOverread (-1)]
  /\ exists attr,
       attr ∈ colors
       /\ stdout (xavs2_set_font_color 9 on_terminal) = [SetAttribute attr]
       /\ attr = 7.
Proof.
  destruct (set_font_color_clamps_above_only (-1) on_terminal) as [_ Hneg].
  destruct Hneg as [Hout Hfaults]; [reflexivity|].
  destruct (set_font_color_clamps_above_only 9 on_terminal) as [Hnn _].
  destruct Hnn as (attr & Hin & Hout9 & _ & Hwhite); [vm_compute; discriminate|].
  split; [exact Hout|]. split; [exact Hfaults|].
  exists attr. split; [exact Hin|]. split; [exact Hout9|].
  apply Hwhite. vm_compute. discriminate.
Defined.

(** X2.  The undefined steps of a log call whose conversions are those of
    [conversions_ok], exactly and in their order: none when the message is
    refused; otherwise an overrun of [str_in] when the expansion has 2048
    characters or more, then an index outside the table of the build when
    the level is outside it, [colors] (after the clamp) for MSVC and
    [str_color] for the other compilers.  A call that [log_defined] accepts
    makes none. *)
Theorem log_faults_exact cc p level fmt args w :
  conversions_ok fmt args = true ->
  faults (xavs2_log cc p level fmt args w)
  = faults w ++
    (if log_passes p level then
       (if str_in_size <=? strlen (vformat fmt args)
        then [BufferOverrun (strlen (vformat fmt args) + 1) str_in_size]
        else [])
       ++ (if level_in_table cc level then [] else [TableOverread level])
     else [])
  /\ (log_defined cc level fmt args = true ->
      faults (xavs2_log cc p level fmt args w) = faults w).
Proof.
  intros _. split; [apply xavs2_log_faults|apply xavs2_log_defined_faults].
Qed.

Lemma log_faults_exact_witness :
  faults (xavs2_log OtherCompiler None 17 "x=%d %s%%" [ArgInt 5; ArgStr "ab"]
            redirected)
  = [TableOverread 17]
  /\ faults (xavs2_log MSVC (Some info_context) XAVS2_LOG_WARNING "x=%d %s%%"
               [ArgInt 5; ArgStr "ab"] redirected)
     = [].
Proof.
  split.
  - apply (proj1 (log_faults_exact OtherCompiler None 17 "x=%d %s%%"
                    [ArgInt 5; ArgStr "ab"] redirected eq_refl)).
  - apply (proj2 (log_faults_exact MSVC (Some info_context) XAVS2_LOG_WARNING
                    "x=%d %s%%" [ArgInt 5; ArgStr "ab"] redirected eq_refl)).
    reflexivity.
Defined.

(** ** What a log call writes *)

(** X3.  Built with MSVC, a log call that passes the gate, with
    conversions of [conversions_ok] and an expansion that fits in [str_in],
    makes three steps on the console whatever the level: it sets an
    attribute, writes the prefix and the message, and sets the white
    attribute.  The first attribute is an entry of [colors] for a level from
    0 on, and what lies before the table for a negative level. *)
Theorem log_msvc_restores_white p level fmt args w :
  log_passes p level = true ->
  conversions_ok fmt args = true ->
  strlen (vformat fmt args) < str_in_size ->
  exists first,
    stdout (xavs2_log MSVC p level fmt args w)
    = stdout w ++
      [first;
       Text (fst (log_prefix_color level) +:+ vformat fmt args);
       SetAttribute
         (Z.lor (Z.lor FOREGROUND_RED FOREGROUND_GREEN) FOREGROUND_BLUE)]
    /\ (0 <= level -> exists attr, first = SetAttribute attr /\ attr ∈ colors)
    /\ (level < 0 -> first = SetAttributeOutside level).
Proof. intros Hpass _ _. now apply xavs2_log_msvc_stdout. Qed.

Lemma log_msvc_restores_white_witness :
  exists first,
    stdout (xavs2_log MSVC (Some info_context) XAVS2_LOG_WARNING "x=%d %s%%"
              [ArgInt 5; ArgStr "ab"] on_terminal)
    = [first; Text "[warning]: x=5 ab%"; SetAttribute 7]
    /\ exists attr, first = SetAttribute attr /\ attr ∈ colors.
Proof.
  destruct (log_msvc_restores_white (Some info_context) XAVS2_LOG_WARNING
              "x=%d %s%%" [ArgInt 5; ArgStr "ab"] on_terminal)
    as (first & Hout & Hknown & _);
    [reflexivity | reflexivity | vm_compute; reflexivity |].
  exists first. split; [exact Hout|].
  apply Hknown. vm_compute. discriminate.
Defined.

(** X4.  The two builds write the same line: what the build for the
    other compilers writes is the text of the MSVC build, either as it is or
    between the escape sequence of a color of the table and the reset
    sequence. *)
Theorem log_builds_write_same_line p level fmt args w :
  log_passes p level = true ->
  exists line,
    text_of (stdout (xavs2_log MSVC p level fmt args w))
    = text_of (stdout w) +:+ line
    /\ (stdout (xavs2_log OtherCompiler p level fmt args w)
        = stdout w ++ [Text line]
        \/ exists color,
             color ∈ str_color
             /\ stdout (xavs2_log OtherCompiler p level fmt args w)
                = stdout w ++ [Text (color +:+ line +:+ str_color_clear)]).
Proof.
  intros Hpass.
  exists (fst (log_prefix_color level) +:+ vformat fmt args). split.
  - rewrite xavs2_log_msvc_text by assumption. reflexivity.
  - rewrite xavs2_log_other_stdout by assumption.
    destruct (negb (level =? XAVS2_LOG_INFO) && negb (level =? XAVS2_LOG_NOPREFIX));
      [right|now left].
    exists (snd (log_prefix_color level)). rewrite string_app_assoc.
    split; [|reflexivity].
    unfold log_prefix_color.
    repeat match goal with
           | |- context [level =? ?k] =>
               destruct (Z.eqb_spec level k) as [->|_]; [simpl; set_solver|]
           end.
    simpl. set_solver.
Qed.

Lemma log_builds_write_same_line_witness :
  exists line,
    text_of (stdout (xavs2_log MSVC None XAVS2_LOG_DEBUG "disk full" [] redirected))
    = text_of (stdout redirected) +:+ line
    /\ (stdout (xavs2_log OtherCompiler None XAVS2_LOG_DEBUG "disk full" []
                  redirected)
        = stdout redirected ++ [Text line]
        \/ exists color,
             color ∈ str_color
             /\ stdout (xavs2_log OtherCompiler None XAVS2_LOG_DEBUG "disk full" []
                          redirected)
                = stdout redirected ++ [Text (color +:+ line +:+ str_color_clear)]).
Proof.
  apply (log_builds_write_same_line None XAVS2_LOG_DEBUG "disk full" []
           redirected).
  reflexivity.
Defined.

(** ** The gate across thresholds, the sink across worlds *)

Lemma land_15_bounds (level : Z) : 0 <= Z.land level 15 <= 15.
Proof.
  change 15 with (Z.ones 4) at 1 2. rewrite Z.land_ones by lia.
  change (2 ^ 4) with 16. pose proof (Z.mod_pos_bound level 16). lia.
Qed.

(** X5.  The gate is monotone in the threshold: what a context lets
    through, every context with a threshold at least as large lets through.
    From the threshold 15 on every level whatsoever is emitted. *)
Theorem log_gate_monotone cc h h' level fmt args w :
  threshold h <= threshold h' ->
  (emitted w (xavs2_log cc (Some h) level fmt args w) = true ->
   emitted w (xavs2_log cc (Some h') level fmt args w) = true)
  /\ (15 <= threshold h' ->
      forall level',
        emitted w (xavs2_log cc (Some h') level' fmt args w) = true).
Proof.
  intros Hle. rewrite !emitted_xavs2_log. unfold log_passes. split.
  - intros Hpass%Z.leb_le. apply Z.leb_le. lia.
  - intros Hall level'. rewrite emitted_xavs2_log. unfold log_passes.
    apply Z.leb_le. pose proof (land_15_bounds level'). lia.
Qed.

Lemma log_gate_monotone_witness :
  emitted redirected
    (xavs2_log OtherCompiler (Some (context_of 15)) (-1) "disk full" [] redirected)
  = true.
Proof.
  apply (proj2 (log_gate_monotone OtherCompiler info_context (context_of 15)
                  XAVS2_LOG_ERROR "disk full" [] redirected
                  ltac:(vm_compute; discriminate))).
  vm_compute. discriminate.
Defined.

Lemma appended_app (w w' : world) (evs : list stdout_event) :
  stdout w' = stdout w ++ evs -> appended w w' = evs.
Proof. intros Hout. unfold appended. rewrite Hout. apply drop_app_length. Qed.

(** What a log call adds to the standard output, as a function of its
    arguments alone. *)
Lemma xavs2_log_appends cc p level fmt args :
  exists evs, forall w,
    stdout (xavs2_log cc p level fmt args w) = stdout w ++ evs.
Proof.
  unfold xavs2_log. destruct (log_passes p level);
    [|exists []; intros w; now rewrite app_nil_r].
  unfold vsprintf, xavs2_log_default.
  destruct (log_prefix_color level) as [pre col]. destruct cc.
  - unfold xavs2_set_font_color, fprintf_stdout.
    destruct (at_index colors (XAVS2_MIN 4 4)) as [a4|],
      (at_index colors (XAVS2_MIN 4 level)) as [al|];
      eexists; intros w;
      destruct (str_in_size <? strlen (vformat fmt args) + 1); simpl;
      rewrite <- ?app_assoc; reflexivity.
  - destruct (negb _ && negb _); eexists; intros w;
      destruct (str_in_size <? strlen (vformat fmt args) + 1);
      destruct (at_index str_color level); reflexivity.
Qed.

(** X6.  The sink has no memory.  A log call that [log_defined] accepts
    only appends to the standard output, and what it appends is the same in
    every world, whatever has been logged, traced or opened before; two such
    calls in a row append what each of them appends alone, in order, and
    make no fault. *)
Theorem log_appends_same_in_every_world cc p level fmt args w1 w2 :
  log_defined cc level fmt args = true ->
  stdout (xavs2_log cc p level fmt args w1)
  = stdout w1 ++ appended w1 (xavs2_log cc p level fmt args w1)
  /\ appended w1 (xavs2_log cc p level fmt args w1)
     = appended w2 (xavs2_log cc p level fmt args w2)
  /\ forall p' level' fmt' args',
       log_defined cc level' fmt' args' = true ->
       stdout (xavs2_log cc p' level' fmt' args'
                 (xavs2_log cc p level fmt args w1))
       = stdout w1 ++ appended w1 (xavs2_log cc p level fmt args w1)
         ++ appended w1 (xavs2_log cc p' level' fmt' args' w1)
       /\ faults (xavs2_log cc p' level' fmt' args'
                    (xavs2_log cc p level fmt args w1))
          = faults w1.
Proof.
  intros Hdef.
  destruct (xavs2_log_appends cc p level fmt args) as [evs Hevs].
  rewrite (appended_app w1 _ evs (Hevs w1)), (appended_app w2 _ evs (Hevs w2)).
  split; [apply Hevs|]. split; [reflexivity|].
  intros p' level' fmt' args' Hdef'.
  destruct (xavs2_log_appends cc p' level' fmt' args') as [evs' Hevs'].
  rewrite (appended_app w1 _ evs' (Hevs' w1)), Hevs', Hevs.
  split; [now rewrite app_assoc|].
  now rewrite !xavs2_log_defined_faults.
Qed.

Lemma log_appends_same_in_every_world_witness :
  stdout (xavs2_log OtherCompiler (Some info_context) XAVS2_LOG_WARNING "b=%s;"
            [ArgStr "xy"]
            (xavs2_log OtherCompiler None XAVS2_LOG_INFO "a=%d;" [ArgInt 5]
               tracing))
  = [Text "[info]: a=5;";
     Text (String ESC "[1;33m[warning]: b=xy;" +:+ String ESC "[0m")].
Proof.
  destruct (log_appends_same_in_every_world OtherCompiler None XAVS2_LOG_INFO
              "a=%d;" [ArgInt 5] tracing redirected eq_refl)
    as (_ & _ & Hboth).
  destruct (Hboth (Some info_context) XAVS2_LOG_WARNING "b=%s;" [ArgStr "xy"]
              eq_refl) as [Hout _].
  exact Hout.
Defined.

(** ** The trace recorder: frame, life cycle and lengths *)

Lemma strlen_app (a b : string) : strlen (a +:+ b) = strlen a + strlen b.
Proof.
  unfold strlen. induction a as [|x a IH]; [reflexivity|].
  change (String x a +:+ b) with (String x (a +:+ b)).
  simpl String.length. lia.
Qed.

(** One write on an open recorder, field by field. *)
Lemma xavs2_trace_step h path fmt args w :
  recording h path w ->
  fst (xavs2_trace fmt args w) = strlen (vformat fmt args)
  /\ files (snd (xavs2_trace fmt args w))
     = <[path := default EmptyString (files w !! path) +:+ vformat fmt args]>
         (files w)
  /\ streams (snd (xavs2_trace fmt args w)) = streams w
  /\ h_trace (snd (xavs2_trace fmt args w)) = h_trace w
  /\ stdout (snd (xavs2_trace fmt args w)) = stdout w
  /\ faults (snd (xavs2_trace fmt args w)) = faults w
  /\ denied (snd (xavs2_trace fmt args w)) = denied w.
Proof.
  intros Hrec. pose proof (open_stream_recording h path w Hrec) as Hopen.
  destruct Hrec as [Hhandle Hstream].
  assert (Hlt : (h < length (streams w))%nat)
    by (eapply lookup_lt_Some; exact Hstream).
  unfold xavs2_trace. rewrite Hhandle.
  unfold vfprintf. rewrite Hopen. simpl s_path. simpl s_buf.
  unfold fflush, open_stream. simpl streams.
  rewrite list_lookup_insert_eq by assumption. simpl.
  rewrite list_insert_insert_eq, (list_insert_id _ _ _ Hstream).
  now repeat split.
Qed.

(** A run of writes on an open recorder, field by field. *)
Lemma trace_all_run h path calls : forall w,
  recording h path w ->
  fst (trace_all calls w)
  = map (fun call => strlen (vformat (fst call) (snd call))) calls
  /\ (forall old, content path w = Some old ->
      content path (snd (trace_all calls w)) = Some (old +:+ records calls))
  /\ (forall other, other <> path ->
      content other (snd (trace_all calls w)) = content other w)
  /\ streams (snd (trace_all calls w)) = streams w
  /\ h_trace (snd (trace_all calls w)) = h_trace w
  /\ stdout (snd (trace_all calls w)) = stdout w
  /\ faults (snd (trace_all calls w)) = faults w
  /\ denied (snd (trace_all calls w)) = denied w.
Proof.
  induction calls as [|[fmt args] calls IH]; intros w Hrec.
  - simpl. repeat split; try reflexivity.
    intros old Hold. now rewrite string_app_nil_r.
  - destruct (xavs2_trace_step h path fmt args w Hrec)
      as (Hlen & Hfiles & Hstreams & Hhandle & Hout & Hfaults & Hdenied).
    simpl. destruct (xavs2_trace fmt args w) as [len w1]. simpl in *.
    assert (Hrec1 : recording h path w1).
    { destruct Hrec as [Hh Hs]. split; [now rewrite Hhandle|now rewrite Hstreams]. }
    destruct (IH w1 Hrec1)
      as (Hlens & Hown & Hothers & Hstreams' & Hhandle' & Hout' & Hfaults'
          & Hdenied').
    destruct (trace_all calls w1) as [lens w2]. simpl in *.
    subst len lens. split; [reflexivity|].
    split; [|split; [|split; [congruence|split; [congruence|
      split; [congruence|split; congruence]]]]].
    + intros old Hold.
      rewrite (Hown (old +:+ vformat fmt args)), string_app_assoc; [reflexivity|].
      unfold content in *. rewrite Hfiles, Hold. simpl. apply lookup_insert_eq.
    + intros other Hother. rewrite Hothers by assumption.
      unfold content. rewrite Hfiles. now apply lookup_insert_ne.
Qed.

(** X7.  A run of writes on an open recorder touches the trace file and
    nothing else: the other files, the streams, the handle, the standard
    output and the faults are as they were. *)
Theorem trace_touches_only_its_file h path calls w :
  recording h path w ->
  (forall other, other <> path ->
     content other (snd (trace_all calls w)) = content other w)
  /\ streams (snd (trace_all calls w)) = streams w
  /\ h_trace (snd (trace_all calls w)) = h_trace w
  /\ stdout (snd (trace_all calls w)) = stdout w
  /\ faults (snd (trace_all calls w)) = faults w.
Proof.
  intros Hrec.
  destruct (trace_all_run h path calls w Hrec)
    as (_ & _ & Hothers & Hstreams & Hhandle & Hout & Hfaults & _).
  now repeat split.
Qed.

Lemma trace_touches_only_its_file_witness :
  stdout (snd (trace_all [("a=%d;", [ArgInt 5]); ("b=%s;", [ArgStr "xy"])] tracing))
  = stdout tracing
  /\ faults (snd (trace_all [("a=%d;", [ArgInt 5]); ("b=%s;", [ArgStr "xy"])]
                    tracing))
     = faults tracing.
Proof.
  assert (Hrec : recording 0 "t.log" tracing) by (split; reflexivity).
  destruct (trace_touches_only_its_file 0 "t.log"
              [("a=%d;", [ArgInt 5]); ("b=%s;", [ArgStr "xy"])] tracing Hrec)
    as (_ & _ & _ & Hout & Hfaults).
  split; [exact Hout | exact Hfaults].
Defined.

(** X8.  The values that a run of writes returns add up to the number of
    characters by which the trace file has grown. *)
Theorem trace_lengths_add_up h path calls old w :
  recording h path w ->
  content path w = Some old ->
  exists new,
    content path (snd (trace_all calls w)) = Some new
    /\ strlen new = strlen old + total (fst (trace_all calls w)).
Proof.
  intros Hrec Hold.
  destruct (trace_all_run h path calls w Hrec) as (Hlens & Hown & _).
  exists (old +:+ records calls). split; [now apply Hown|].
  rewrite strlen_app, Hlens. f_equal. clear.
  induction calls as [|[fmt args] calls IH]; [reflexivity|].
  simpl. rewrite strlen_app. unfold total in IH. now rewrite IH.
Qed.

Lemma trace_lengths_add_up_witness :
  exists new,
    content "t.log"
      (snd (trace_all [("a=%d;", [ArgInt 5]); ("b=%s;", [ArgStr "xy"])] tracing))
    = Some new
    /\ strlen new
       = strlen EmptyString
         + total (fst (trace_all [("a=%d;", [ArgInt 5]); ("b=%s;", [ArgStr "xy"])]
                         tracing)).
Proof.
  apply (trace_lengths_add_up 0 "t.log"); [split; reflexivity | reflexivity].
Defined.

(** X9.  A successful [xavs2_trace_init] empties the file at the path,
    whatever it held, and hands the new stream to [h_trace]; it closes
    nothing: every stream that existed, a trace opened earlier included, is
    as it was, and so are the other files, the standard output and the
    faults. *)
Theorem trace_init_truncates_and_closes_nothing cc param w :
  psz_trace_file param <> EmptyString ->
  psz_trace_file param ∉ denied w ->
  let path := psz_trace_file param in
  let w' := snd (xavs2_trace_init cc param w) in
  fst (xavs2_trace_init cc param w) = 0
  /\ content path w' = Some EmptyString
  /\ (forall other, other <> path -> content other w' = content other w)
  /\ h_trace w' = Some (length (streams w))
  /\ (forall h s, streams w !! h = Some s -> streams w' !! h = Some s)
  /\ stdout w' = stdout w
  /\ faults w' = faults w.
Proof.
  intros Hpath Hfree path w'. subst path w'. unfold xavs2_trace_init.
  rewrite strlen_pos by assumption. unfold fopen_wt.
  rewrite bool_decide_eq_false_2 by assumption. simpl.
  split; [reflexivity|]. split; [apply lookup_insert_eq|].
  split; [intros other Hother; unfold content; simpl;
          now apply lookup_insert_ne|].
  split; [reflexivity|]. split; [|now split].
  intros h s Hs. now apply lookup_app_l_Some.
Qed.

Lemma trace_init_truncates_and_closes_nothing_witness :
  content "t.log" (snd (xavs2_trace_init OtherCompiler (trace_param "t.log") tracing))
  = Some EmptyString
  /\ h_trace (snd (xavs2_trace_init OtherCompiler (trace_param "t.log") tracing))
     = Some 1%nat.
Proof.
  assert (Hpath : psz_trace_file (trace_param "t.log") <> EmptyString)
    by discriminate.
  assert (Hfree : psz_trace_file (trace_param "t.log") ∉ denied tracing)
    by (vm_compute; discriminate).
  destruct (trace_init_truncates_and_closes_nothing OtherCompiler
              (trace_param "t.log") tracing Hpath Hfree)
    as (_ & Hfile & _ & Hhandle & _).
  split; [exact Hfile | exact Hhandle].
Defined.

(** [xavs2_trace_destroy] on an open recorder: the file keeps what it
    held, the stream is closed, the handle stays in [h_trace]. *)
Lemma trace_destroy_recording h path w :
  recording h path w ->
  open_stream h (xavs2_trace_destroy w) = None
  /\ h_trace (xavs2_trace_destroy w) = Some h
  /\ faults (xavs2_trace_destroy w) = faults w
  /\ stdout (xavs2_trace_destroy w) = stdout w
  /\ (forall old, content path w = Some old ->
      content path (xavs2_trace_destroy w) = Some old).
Proof.
  intros Hrec. pose proof (open_stream_recording h path w Hrec) as Hopen.
  destruct (fclose_closes h _ w Hopen) as (Hclosed & Hfaults & Hkept).
  destruct Hrec as [Hhandle Hstream].
  unfold xavs2_trace_destroy. rewrite Hhandle.
  split; [exact Hclosed|]. split; [now rewrite Hkept|].
  split; [exact Hfaults|].
  unfold fclose, fflush. rewrite Hopen. simpl.
  split; [reflexivity|].
  intros old Hold. unfold content in *. simpl. rewrite Hold. simpl.
  rewrite lookup_insert_eq. now rewrite string_app_nil_r.
Qed.

(** X10.  The life of a trace: after a successful [xavs2_trace_init], a
    run of writes and [xavs2_trace_destroy], the file at the path holds the
    records of the run and nothing else, whatever it held before; the stream
    is closed, and neither a fault nor a line on the standard output has
    been made. *)
Theorem trace_life_cycle cc param calls w :
  psz_trace_file param <> EmptyString ->
  psz_trace_file param ∉ denied w ->
  let w1 := snd (xavs2_trace_init cc param w) in
  let w2 := snd (trace_all calls w1) in
  let w3 := xavs2_trace_destroy w2 in
  content (psz_trace_file param) w3 = Some (records calls)
  /\ open_stream (length (streams w)) w3 = None
  /\ faults w3 = faults w
  /\ stdout w3 = stdout w.
Proof.
  intros Hpath Hfree w1 w2 w3.
  destruct (trace_init_opens cc param w Hpath Hfree) as (_ & Hrec1 & Hfile1).
  fold w1 in Hrec1, Hfile1.
  assert (Hkeep : stdout w1 = stdout w /\ faults w1 = faults w).
  { subst w1. unfold xavs2_trace_init. rewrite strlen_pos by assumption.
    unfold fopen_wt. rewrite bool_decide_eq_false_2 by assumption. now split. }
  destruct Hkeep as [Hout1 Hfaults1].
  destruct (trace_all_run (length (streams w)) (psz_trace_file param) calls w1
              Hrec1)
    as (_ & Hown & _ & Hstreams & Hhandle & Hout2 & Hfaults2 & _).
  fold w2 in Hown, Hstreams, Hhandle, Hout2, Hfaults2.
  assert (Hrec2 : recording (length (streams w)) (psz_trace_file param) w2).
  { destruct Hrec1 as [Hh Hs]. split; [now rewrite Hhandle|now rewrite Hstreams]. }
  destruct (trace_destroy_recording _ _ w2 Hrec2)
    as (Hclosed & _ & Hfaults3 & Hout3 & Hfile3).
  fold w3 in Hclosed, Hfaults3, Hout3, Hfile3.
  split; [|split; [exact Hclosed|split; congruence]].
  apply Hfile3. apply (Hown EmptyString Hfile1).
Qed.

Lemma trace_life_cycle_witness :
  content "t.log"
    (xavs2_trace_destroy
       (snd (trace_all [("a=%d;", [ArgInt 5]); ("b=%s;", [ArgStr "xy"])]
               (snd (xavs2_trace_init OtherCompiler (trace_param "t.log")
                       redirected)))))
  = Some (records [("a=%d;", [ArgInt 5]); ("b=%s;", [ArgStr "xy"])]).
Proof.
  assert (Hpath : psz_trace_file (trace_param "t.log") <> EmptyString)
    by discriminate.
  assert (Hfree : psz_trace_file (trace_param "t.log") ∉ denied redirected)
    by (vm_compute; discriminate).
  apply (trace_life_cycle OtherCompiler (trace_param "t.log")
           [("a=%d;", [ArgInt 5]); ("b=%s;", [ArgStr "xy"])] redirected
           Hpath Hfree).
Defined.

(** X11.  After [xavs2_trace_destroy] a write is not the write of a
    recorder without a handle: [h_trace] still holds the closed stream, and
    [xavs2_trace] passes it to [vfprintf] and [fflush]. *)
Theorem trace_after_destroy_uses_closed_stream h path fmt args w :
  recording h path w ->
  h_trace (xavs2_trace_destroy w) = Some h
  /\ open_stream h (xavs2_trace_destroy w) = None
  /\ faults (snd (xavs2_trace fmt args (xavs2_trace_destroy w)))
     = faults w ++ [StreamAfterClose h; StreamAfterClose h].
Proof.
  intros Hrec.
  destruct (trace_destroy_recording h path w Hrec)
    as (Hclosed & Hhandle & Hfaults & _).
  split; [exact Hhandle|]. split; [exact Hclosed|].
  unfold xavs2_trace. rewrite Hhandle. unfold vfprintf. rewrite Hclosed.
  unfold fflush.
  assert (Hstill : open_stream h (raise (StreamAfterClose h) (xavs2_trace_destroy w))
                   = None) by exact Hclosed.
  rewrite Hstill. simpl. rewrite Hfaults. now rewrite <- app_assoc.
Qed.

Lemma trace_after_destroy_uses_closed_stream_witness :
  faults (snd (xavs2_trace "a=%d;" [ArgInt 5] (xavs2_trace_destroy tracing)))
  = faults tracing ++ [StreamAfterClose 0%nat; StreamAfterClose 0%nat].
Proof.
  apply (trace_after_destroy_uses_closed_stream 0 "t.log" "a=%d;" [ArgInt 5]
           tracing).
  split; reflexivity.
Defined.

(** ** The clock: order, units and decoding *)

Lemma is_int64_between (z : Z) : 0 <= z <= INT64_MAX -> is_int64 z.
Proof. unfold is_int64, INT64_MIN, INT64_MAX. lia. Qed.

Lemma INT64_MAX_value : INT64_MAX = 9223372036854775807.
Proof. reflexivity. Qed.

Lemma mdate_gettimeofday tv_sec tv_usec :
  timeval_ok tv_sec tv_usec ->
  xavs2_mdate (Gettimeofday tv_sec tv_usec) = Some (tv_sec * 1000000 + tv_usec).
Proof.
  intros (Hsec & Husec & Hmax). rewrite INT64_MAX_value in Hmax. simpl.
  rewrite (int64_exact tv_sec), (int64_exact tv_usec),
    (int64_exact (tv_sec * 1000000)), int64_exact;
    try reflexivity; apply is_int64_between; rewrite INT64_MAX_value; lia.
Qed.

Lemma mdate_ftime time millitm :
  timeb_ok time millitm ->
  xavs2_mdate (Ftime time millitm) = Some ((time * 1000 + millitm) * 1000).
Proof.
  intros (Htime & Hms & Hmax). rewrite INT64_MAX_value in Hmax. simpl.
  rewrite (int64_exact time), (int64_exact millitm),
    (int64_exact (time * 1000)), (int64_exact (time * 1000 + millitm)),
    int64_exact;
    try reflexivity; apply is_int64_between; rewrite INT64_MAX_value; lia.
Qed.

(** X12.  [xavs2_mdate] keeps the order of the clock: of two readings of
    [gettimeofday], the later one, by its seconds and then by its
    microseconds, gives the strictly larger timestamp; so two different
    readings never give the same one. *)
Theorem mdate_strictly_monotone s1 u1 s2 u2 :
  timeval_ok s1 u1 ->
  timeval_ok s2 u2 ->
  s1 < s2 \/ (s1 = s2 /\ u1 < u2) ->
  exists t1 t2,
    xavs2_mdate (Gettimeofday s1 u1) = Some t1
    /\ xavs2_mdate (Gettimeofday s2 u2) = Some t2
    /\ t1 < t2.
Proof.
  intros Hok1 Hok2 Hlater.
  exists (s1 * 1000000 + u1), (s2 * 1000000 + u2).
  rewrite !mdate_gettimeofday by assumption.
  split; [reflexivity|]. split; [reflexivity|].
  destruct Hok1 as (_ & Hu1 & _), Hok2 as (_ & Hu2 & _). lia.
Qed.

Lemma mdate_strictly_monotone_witness :
  exists t1 t2,
    xavs2_mdate (Gettimeofday 1700000000 999999) = Some t1
    /\ xavs2_mdate (Gettimeofday 1700000001 0) = Some t2
    /\ t1 < t2.
Proof.
  apply mdate_strictly_monotone.
  - vm_compute. repeat split; discriminate.
  - vm_compute. repeat split; discriminate.
  - left. reflexivity.
Defined.

(** X13.  The two integer sources agree on the unit: a reading of
    [ftime] gives the timestamp that [gettimeofday] gives for the same second
    and that many thousand microseconds, and it is a whole number of
    milliseconds. *)
Theorem mdate_ftime_agrees_with_gettimeofday time millitm :
  timeb_ok time millitm ->
  xavs2_mdate (Ftime time millitm)
  = xavs2_mdate (Gettimeofday time (millitm * 1000))
  /\ exists t, xavs2_mdate (Ftime time millitm) = Some t /\ t mod 1000 = 0.
Proof.
  intros Hok. rewrite mdate_ftime by assumption.
  assert (Htv : timeval_ok time (millitm * 1000)).
  { destruct Hok as (Htime & Hms & Hmax). unfold timeval_ok.
    rewrite INT64_MAX_value in *. lia. }
  rewrite mdate_gettimeofday by assumption. split; [f_equal; lia|].
  eexists. split; [reflexivity|]. apply Z.mod_mul. lia.
Qed.

Lemma mdate_ftime_agrees_with_gettimeofday_witness :
  xavs2_mdate (Ftime 1700000000 123)
  = xavs2_mdate (Gettimeofday 1700000000 (123 * 1000)).
Proof.
  apply (mdate_ftime_agrees_with_gettimeofday 1700000000 123).
  vm_compute. repeat split; discriminate.
Defined.

(** X14.  The timestamp of [gettimeofday] decodes: its quotient by
    1000000 is the seconds of the reading and its remainder the
    microseconds. *)
Theorem mdate_decodes tv_sec tv_usec :
  timeval_ok tv_sec tv_usec ->
  exists t,
    xavs2_mdate (Gettimeofday tv_sec tv_usec) = Some t
    /\ t / 1000000 = tv_sec
    /\ t mod 1000000 = tv_usec.
Proof.
  intros Hok. rewrite mdate_gettimeofday by assumption.
  destruct Hok as (_ & Husec & _).
  exists (tv_sec * 1000000 + tv_usec). split; [reflexivity|]. split.
  - rewrite Z.div_add_l by lia. rewrite Z.div_small by lia. lia.
  - rewrite Z.add_comm, Z.mod_add by lia. now apply Z.mod_small.
Qed.

Lemma mdate_decodes_witness :
  exists t,
    xavs2_mdate (Gettimeofday 1700000000 123456) = Some t
    /\ t / 1000000 = 1700000000
    /\ t mod 1000000 = 123456.
Proof.
  apply (mdate_decodes 1700000000 123456).
  vm_compute. repeat split; discriminate.
Defined.

(** ** Logging beside tracing *)

(** X15.  Logging does not disturb the trace: on an open recorder, a run
    of writes made after a log call that [log_defined] accepts returns the
    same values and leaves the same trace file as the run made without
    it. *)
Theorem log_leaves_trace_alone cc p level fmt args h path calls old w :
  log_defined cc level fmt args = true ->
  recording h path w ->
  content path w = Some old ->
  let w' := xavs2_log cc p level fmt args w in
  recording h path w'
  /\ faults w' = faults w
  /\ fst (trace_all calls w') = fst (trace_all calls w)
  /\ content path (snd (trace_all calls w'))
     = content path (snd (trace_all calls w)).
Proof.
  intros Hdef Hrec Hold w'.
  destruct (xavs2_log_keeps_files cc p level fmt args w)
    as (Hfiles & Hstreams & Hhandle).
  fold w' in Hfiles, Hstreams, Hhandle.
  assert (Hrec' : recording h path w').
  { destruct Hrec as [Hh Hs]. split; [now rewrite Hhandle|now rewrite Hstreams]. }
  assert (Hold' : content path w' = Some old)
    by (unfold content in *; now rewrite Hfiles).
  destruct (trace_all_run h path calls w Hrec) as (Hlens & Hown & _).
  destruct (trace_all_run h path calls w' Hrec') as (Hlens' & Hown' & _).
  split; [exact Hrec'|].
  split; [now apply xavs2_log_defined_faults|].
  split; [now rewrite Hlens, Hlens'|].
  now rewrite (Hown old Hold), (Hown' old Hold').
Qed.

Lemma log_leaves_trace_alone_witness :
  content "t.log"
    (snd (trace_all [("a=%d;", [ArgInt 5])]
            (xavs2_log OtherCompiler None XAVS2_LOG_ERROR "disk full" [] tracing)))
  = content "t.log" (snd (trace_all [("a=%d;", [ArgInt 5])] tracing)).
Proof.
  apply (log_leaves_trace_alone OtherCompiler None XAVS2_LOG_ERROR "disk full" []
           0%nat "t.log" [("a=%d;", [ArgInt 5])] EmptyString tracing);
    [reflexivity | split; reflexivity | reflexivity].
Defined.
